(** * Arctic Navigation Quicklook: a shallow embedding of
      [scripts/interactive_quicklook.py]

    The script loads a time-indexed navigation dataset and a gridded
    sea-ice-concentration (SIC) dataset, slices them by day, coarsens and
    filters the day slice, and builds a map and a stack of time series.

    Conventions of the embedding:
    - a [datetime64[ns]] timestamp is the integer number of nanoseconds
      since the epoch ([Z]);
    - a day label ["%Y-%m-%d"] is represented by the number of the day
      since the epoch, with which it is in one-to-one correspondence;
    - a float array cell is [option Q]: [None] is NaN, a finite cell is
      its exact rational value (rounding is not modelled);
    - an xarray object with a [time] dimension is the list of its rows in
      index order;
    - a module-level object that a function reads ([DS], [DS_SIC], the
      slider) is an explicit parameter of its embedding, and one that it
      assigns is returned;
    - a Python exception is the [Err] case of [result];
    - for the question which objects a call writes to, the module-level
      objects and the objects that the functions create live in a store
      of locations (module [Store]). *)

From Stdlib Require Import ZArith QArith String List Lia.
From Stdlib Require Import DecimalString Lqa.
From stdpp Require Import base list sorting strings gmap.

Local Open Scope Z_scope.

(** ** Exceptions and the error monad *)

Inductive exn : Type :=
  | RuntimeError (msg : string)
  | FileNotFoundError (path : string)
  | IndexError
  | ValueError
  | KeyError (key : string)
  | AttributeError (attr : string).

Inductive result (A : Type) : Type :=
  | Ok (a : A)
  | Err (e : exn).
Arguments Ok {A} a.
Arguments Err {A} e.

#[global] Instance result_ret : MRet result := fun _ a => Ok a.
#[global] Instance result_bind : MBind result := fun _ _ k r =>
  match r with
  | Ok a => k a
  | Err e => Err e
  end.

#[global] Instance result_fmap : FMap result := fun _ _ f r =>
  match r with
  | Ok a => Ok (f a)
  | Err e => Err e
  end.

Definition is_ok {A} (r : result A) : bool :=
  match r with Ok _ => true | Err _ => false end.

(** ** Float cells *)

Definition fval : Type := option Q.
Definition NaN : fval := None.

Definition isnan (v : fval) : bool :=
  match v with None => true | Some _ => false end.

Fixpoint Qsum (l : list Q) : Q :=
  match l with
  | [] => 0%Q
  | q :: r => (q + Qsum r)%Q
  end.

(** [numpy.nanmean] along one axis: NaN cells are skipped, and a lane with
    no finite cell gives NaN.  It is the reduction xarray uses for [mean]
    on float data ([skipna] defaults to true). *)
Definition nanmean (l : list fval) : fval :=
  match omap id l with
  | [] => NaN
  | q :: r => Some (Qsum (q :: r) / inject_Z (Z.of_nat (length (q :: r))))%Q
  end.

(** ** Timestamps and days *)

Abbreviation datetime64 := Z.

Definition NS_PER_SECOND : Z := 1000000000.
Definition SECONDS_PER_DAY : Z := 86400.
Definition NS_PER_DAY : Z := SECONDS_PER_DAY * NS_PER_SECOND.

(** [time.dt.strftime("%Y-%m-%d")], as a day number. *)
Definition strftime_day (t : datetime64) : Z := t / NS_PER_DAY.

(** The bounds pandas gives the labels [f"{day}T00:00"] (left side of a
    slice: the start of that minute) and [f"{day}T23:59:59"] (right side
    of a slice: the last nanosecond of that second). *)
Definition day_lower (day : Z) : datetime64 := day * NS_PER_DAY.
Definition day_upper (day : Z) : datetime64 := day * NS_PER_DAY + NS_PER_DAY - 1.

Definition second_of_day (t : datetime64) : Z := (t / NS_PER_SECOND) mod SECONDS_PER_DAY.
Definition dt_hour (t : datetime64) : Z := second_of_day t / 3600.
Definition dt_minute (t : datetime64) : Z := (second_of_day t mod 3600) / 60.
Definition dt_second (t : datetime64) : Z := second_of_day t mod 60.

(** Mean of a block of timestamps.  xarray averages the offsets from the
    minimum, as floats, and truncates to whole nanoseconds; here it is the
    floor of the exact mean, and the float rounding of the offsets, which
    can move the result by nanoseconds, is not modelled. *)
Definition Zsum (l : list Z) : Z := fold_right Z.add 0 l.
Definition mean_time (l : list datetime64) : datetime64 :=
  Zsum l / Z.of_nat (length l).

(** ** Label-based slicing on a time index

    [obj.sel(time=slice(lo, hi))] on a monotonic increasing index is the
    positional slice between [searchsorted(lo, side="left")] and
    [searchsorted(hi, side="right")].  Only that path of pandas is
    modelled: every dataset of the application is indexed by increasing
    time, and the theorems that rely on it say so. *)

Section TimeIndexed.
Context {A : Type} (tm : A -> datetime64).

Fixpoint searchsorted_left (l : list A) (x : datetime64) : nat :=
  match l with
  | [] => O
  | a :: r => if tm a <? x then S (searchsorted_left r x) else O
  end.

Fixpoint searchsorted_right (l : list A) (x : datetime64) : nat :=
  match l with
  | [] => O
  | a :: r => if tm a <=? x then S (searchsorted_right r x) else O
  end.

(** [obj.isel(time=slice(start, stop))] *)
Definition isel (l : list A) (start stop : nat) : list A :=
  take (stop - start) (drop start l).

Definition sel_time (l : list A) (lo hi : datetime64) : list A :=
  isel l (searchsorted_left l lo) (searchsorted_right l hi).

Fixpoint is_monotonic_increasing (l : list A) : bool :=
  match l with
  | [] => true
  | a :: r =>
      match r with
      | [] => true
      | b :: _ => (tm a <=? tm b) && is_monotonic_increasing r
      end
  end.

(** [obj.time.min()] and [obj.time.max()]; numpy raises [ValueError] on
    an empty array. *)
Definition time_min (l : list A) : result datetime64 :=
  match l with
  | [] => Err ValueError
  | a :: r => Ok (fold_left (fun m b => Z.min m (tm b)) r (tm a))
  end.

Definition time_max (l : list A) : result datetime64 :=
  match l with
  | [] => Err ValueError
  | a :: r => Ok (fold_left (fun m b => Z.max m (tm b)) r (tm a))
  end.

(** [Variable.coarsen_reshape] with [boundary="trim"], [side="left"]:
    [n] windows of [k] consecutive rows. *)
Fixpoint reshape (k n : nat) (l : list A) : list (list A) :=
  match n with
  | O => []
  | S n' => take k l :: reshape k n' (drop k l)
  end.

Definition coarsen_trim (k : nat) (l : list A) : list (list A) :=
  let n := (length l / k)%nat in
  reshape k n (isel l 0 (k * n)).

(** The index is monotonic increasing (equal labels allowed). *)
Definition increasing : list A -> Prop :=
  StronglySorted (fun a b => tm a <= tm b).

(** The label of a row lies between two bounds, both included. *)
Definition between (lo hi : datetime64) (a : A) : bool :=
  (lo <=? tm a) && (tm a <=? hi).
End TimeIndexed.

(** ** The navigation dataset *)

(** One record of the file: the [time] coordinate and the six variables
    the application reads. *)
Record nav_record : Type := mk_nav_record {
  r_time : datetime64;
  r_altitude : fval;
  r_pitch : fval;
  r_roll : fval;
  r_t_kt19 : fval;
  r_latitude : fval;
  r_longitude : fval
}.

(** One record of the loaded dataset: the file's record and the
    [hour_of_day] coordinate assigned at load. *)
Record sample : Type := mk_sample {
  time : datetime64;
  altitude : fval;
  pitch : fval;
  roll : fval;
  t_kt19 : fval;
  latitude : fval;
  longitude : fval;
  hour_of_day : fval
}.

Definition nav_dataset : Type := list sample.

(** ** The sea-ice dataset *)

(** The [sic] field at one time: the cells of the lat/lon grid, in
    row-major order. *)
Record sic_slice : Type := mk_sic_slice {
  sic_time : datetime64;
  sic : list fval
}.

Record sic_file : Type := mk_sic_file {
  f_slices : list sic_slice;
  f_lat : list fval;
  f_lon : list fval
}.

(** The dataset after [squeeze()]: a [time] dimension of length one is
    dropped and [time] becomes a scalar coordinate without an index. *)
Inductive sic_dataset : Type :=
  | SicSeries (slices : list sic_slice) (lat lon : list fval)
  | SicScalar (slice : sic_slice) (lat lon : list fval).

Definition squeeze (f : sic_file) : sic_dataset :=
  match f_slices f with
  | [s] => SicScalar s (f_lat f) (f_lon f)
  | l => SicSeries l (f_lat f) (f_lon f)
  end.

(** [ds_sic.where(ds_sic.sic <= 100)] on one cell: the cell is kept where
    the comparison is true and becomes NaN where it is false; a comparison
    with NaN is false. *)
Definition where_le_100 (v : fval) : fval :=
  match v with
  | Some q => if Qle_bool q 100 then Some q else NaN
  | None => NaN
  end.

Definition where_slice (s : sic_slice) : sic_slice :=
  {| sic_time := sic_time s; sic := map where_le_100 (sic s) |}.

(** [lat] and [lon] are taken to be coordinates of the grid, which
    [where] leaves as they are; only the [sic] variable is masked. *)
Definition where_sic (d : sic_dataset) : sic_dataset :=
  match d with
  | SicSeries l lat lon => SicSeries (map where_slice l) lat lon
  | SicScalar s lat lon => SicScalar (where_slice s) lat lon
  end.

(** Every cell of the [sic] field of a loaded dataset. *)
Definition sic_cells (d : sic_dataset) : list fval :=
  match d with
  | SicSeries l _ _ => concat (map sic l)
  | SicScalar s _ _ => sic s
  end.

(** ** Files and path resolution *)

Inductive nc_file : Type :=
  | NavFile (records : list nav_record)
  | SicFile (f : sic_file).

(** The file system: the NetCDF files found at each path. *)
Abbreviation filesystem := (gmap string nc_file).

Definition CANDIDATE_DATASET_PATHS : list string :=
  [ "data/observations/processed/bbr_BACSAM2_p6_processed.nc";
    "../../../data/observations/processed/bbr_BACSAM2_p6_processed.nc" ]%string.

Definition CANDIDATE_SIC_PATHS : list string :=
  [ "data/observations/processed/satellite_unified/sic_modis-aqua_amsr2-gcom-w1_merged_nh_1000m_APRIL.nc";
    "../../../data/observations/processed/satellite_unified/sic_modis-aqua_amsr2-gcom-w1_merged_nh_1000m_APRIL.nc" ]%string.

(** [Path.exists] *)
Definition path_exists (fs : filesystem) (p : string) : bool :=
  match fs !! p with Some _ => true | None => false end.

Fixpoint first_existing (fs : filesystem) (candidates : list string) : option string :=
  match candidates with
  | [] => None
  | p :: rest => if path_exists fs p then Some p else first_existing fs rest
  end.

(** The loop returns at the first existing candidate; after the loop
    [candidates[0]] is returned, which raises [IndexError] on an empty
    list. *)
Definition _resolve_path (fs : filesystem) (candidates : list string) : result string :=
  match first_existing fs candidates with
  | Some p => Ok p
  | None =>
      match candidates with
      | p0 :: _ => Ok p0
      | [] => Err IndexError
      end
  end.

Definition DATASET_PATH (fs : filesystem) : result string :=
  _resolve_path fs CANDIDATE_DATASET_PATHS.
Definition SIC_PATH (fs : filesystem) : result string :=
  _resolve_path fs CANDIDATE_SIC_PATHS.

(** [xr.open_dataset]: a missing file raises [FileNotFoundError]. *)
Definition open_dataset (fs : filesystem) (path : string) : result nc_file :=
  match fs !! path with
  | Some f => Ok f
  | None => Err (FileNotFoundError path)
  end.

(** ** Data loading *)

(** [(hour * 3600 + minute * 60 + second) / 3600] *)
Definition hod (t : datetime64) : fval :=
  Some (inject_Z (dt_hour t * 3600 + dt_minute t * 60 + dt_second t) / 3600)%Q.

Definition assign_hour_of_day (r : nav_record) : sample :=
  {| time := r_time r;
     altitude := r_altitude r;
     pitch := r_pitch r;
     roll := r_roll r;
     t_kt19 := r_t_kt19 r;
     latitude := r_latitude r;
     longitude := r_longitude r;
     hour_of_day := hod (r_time r) |}.

(** A file that lacks the variables read from it is rejected where it is
    opened; xarray raises when the missing variable is first used. *)
Definition as_nav (f : nc_file) : result (list nav_record) :=
  match f with
  | NavFile l => Ok l
  | SicFile _ => Err (KeyError "altitude")
  end.

Definition as_sic (f : nc_file) : result sic_file :=
  match f with
  | SicFile s => Ok s
  | NavFile _ => Err (AttributeError "sic")
  end.

Definition load_data (fs : filesystem) : result (nav_dataset * sic_dataset) :=
  dataset_path ← DATASET_PATH fs;
  sic_path ← SIC_PATH fs;
  ds ← open_dataset fs dataset_path ≫= as_nav;
  ds_sic ← open_dataset fs sic_path ≫= as_sic;
  let ds_sic := squeeze ds_sic in
  let ds_sic := where_sic ds_sic in
  let ds := map assign_hour_of_day ds in
  Ok (ds, ds_sic).

(** [np.unique]: the sorted distinct values. *)
Fixpoint insert_unique (d : Z) (l : list Z) : list Z :=
  match l with
  | [] => [d]
  | x :: r =>
      if d <? x then d :: l
      else if d =? x then l
      else x :: insert_unique d r
  end.

Definition np_unique (l : list Z) : list Z := fold_right insert_unique [] l.

(** List of available days *)
Definition DAYS (DS : nav_dataset) : list Z :=
  np_unique (map (fun s => strftime_day (time s)) DS).

(** ** Widgets *)

(** The value of the time-range slider: [None], or a pair of bounds. *)
Definition time_range : Type := option (option datetime64 * option datetime64).

Record DatetimeRangeSlider : Type := mk_slider {
  slider_start : option datetime64;
  slider_end : option datetime64;
  slider_value : time_range
}.

(** ** Helper functions *)

Definition _sel_day (ds : nav_dataset) (day : Z) : nav_dataset :=
  sel_time time ds (day_lower day) (day_upper day).

(** The mean of one window: every variable and the [hour_of_day]
    coordinate by [nanmean], the [time] coordinate by [mean_time]. *)
Definition mean_block (b : list sample) : sample :=
  {| time := mean_time (map time b);
     altitude := nanmean (map altitude b);
     pitch := nanmean (map pitch b);
     roll := nanmean (map roll b);
     t_kt19 := nanmean (map t_kt19 b);
     latitude := nanmean (map latitude b);
     longitude := nanmean (map longitude b);
     hour_of_day := nanmean (map hour_of_day b) |}.

(** [ds.coarsen(time=k, boundary="trim").mean()]: one row per window.
    The mean of the [time] coordinate starts by taking the minimum of the
    trimmed coordinate, which raises [ValueError] on an empty array: on a
    dataset with fewer than [k] rows there is no window and the call
    raises. *)
Definition coarsen_mean (k : Z) (ds : nav_dataset) : result nav_dataset :=
  match coarsen_trim (Z.to_nat k) ds with
  | [] => Err ValueError
  | windows => Ok (map mean_block windows)
  end.

(** Truth value of a Python [int]. *)
Definition truthy (n : Z) : bool := negb (n =? 0).

Definition _prep_day (ds : nav_dataset) (day : Z) (coarsen : Z) : result nav_dataset :=
  let ds_day := _sel_day ds day in
  if truthy coarsen && (coarsen >? 1)
  then coarsen_mean coarsen ds_day
  else Ok ds_day.

(** [_make_timerange] reads the global [DS] and assigns the three
    parameters of the global slider; the new slider is returned.  Both
    bounds are computed before the first assignment. *)
Definition _make_timerange (DS : nav_dataset) (day : Z) (w_timerange : DatetimeRangeSlider)
  : result DatetimeRangeSlider :=
  let dsel := _sel_day DS day in
  t0 ← time_min time dsel;
  t1 ← time_max time dsel;
  let w_timerange := mk_slider (Some t0) (slider_end w_timerange) (slider_value w_timerange) in
  let w_timerange := mk_slider (slider_start w_timerange) (Some t1) (slider_value w_timerange) in
  let w_timerange := mk_slider (slider_start w_timerange) (slider_end w_timerange) (Some (Some t0, Some t1)) in
  Ok w_timerange.

Definition _filter_timerange (ds_day : nav_dataset) (t_range : time_range) : nav_dataset :=
  match t_range with
  | Some (Some t0, Some t1) => sel_time time ds_day t0 t1
  | _ => ds_day
  end.

(** ** Plot builders *)

(** One [hvplot.scatter] element: the points [(x, y, c)] with [x] the
    time, [c] the hour of day, and the options that vary between calls. *)
Record scatter : Type := mk_scatter {
  sc_ylabel : string;
  sc_points : list (datetime64 * fval * fval);
  sc_size : Z;
  sc_alpha : Q;
  sc_colorbar : bool
}.

Definition hvplot_scatter (ds_day : nav_dataset) (y : sample -> fval) (ylabel : string)
    (size : Z) (alpha : Q) (colorbar : bool) : scatter :=
  {| sc_ylabel := ylabel;
     sc_points := map (fun s => (time s, y s, hour_of_day s)) ds_day;
     sc_size := size;
     sc_alpha := alpha;
     sc_colorbar := colorbar |}.

(** The layout of six panels in one column.  [hour_of_day] is a
    coordinate of every dataset derived from the loaded one, so the
    branch that would compute it is not taken. *)
Definition build_timeseries (ds_day : nav_dataset) (size : Z) (alpha : Q) : list scatter :=
  let alt := hvplot_scatter ds_day altitude "Altitude (m)" size alpha true in
  let pitch := hvplot_scatter ds_day pitch "Pitch (deg)" size alpha false in
  let roll := hvplot_scatter ds_day roll "Roll (deg)" size alpha false in
  let kt19 := hvplot_scatter ds_day t_kt19 "KT19 (K)" size alpha false in
  let lat := hvplot_scatter ds_day latitude "Latitude (°)" size alpha false in
  let lon := hvplot_scatter ds_day longitude "Longitude (°)" size alpha false in
  [alt; pitch; roll; kt19; lat; lon].

(** The daily-mean SIC dataset handed to the map. *)
Record sic_day_mean : Type := mk_sic_day_mean {
  m_sic : list fval;
  m_lat : list fval;
  m_lon : list fval
}.

(** The colored track: the rows of the tidy data frame and the marker
    options. *)
Record points : Type := mk_points {
  pt_rows : list (datetime64 * fval * fval * fval);
  pt_size : Z;
  pt_alpha : Q
}.

Inductive map_plot : Type :=
  | Points (pts : points)
  | Overlay (sic_raster : sic_day_mean) (pts : points).

(** [df.dropna(subset=["longitude", "latitude"])] *)
Definition dropna (ds : nav_dataset) : nav_dataset :=
  List.filter (fun s => negb (isnan (longitude s)) && negb (isnan (latitude s))) ds.

Definition build_map (ds_day : nav_dataset) (ds_sic_day_mean : option sic_day_mean)
    (size : Z) (alpha : Q) (show_sic : bool) : map_plot :=
  let df := dropna ds_day in
  let pts :=
    {| pt_rows := map (fun s => (time s, longitude s, latitude s, hour_of_day s)) df;
       pt_size := size;
       pt_alpha := alpha |} in
  match show_sic, ds_sic_day_mean with
  | true, Some m => Overlay m pts
  | _, _ => Points pts
  end.

Definition raster_of (m : map_plot) : option sic_day_mean :=
  match m with
  | Points _ => None
  | Overlay r _ => Some r
  end.

Definition track_of (m : map_plot) : points :=
  match m with
  | Points p => p
  | Overlay _ p => p
  end.

(** ** Reactive pipeline *)

Definition _ds_for_view (DS : nav_dataset) (day : Z) (coarsen : Z) (t_range : time_range)
  : result nav_dataset :=
  ds_day ← _prep_day DS day coarsen;
  let ds_day := _filter_timerange ds_day t_range in
  Ok ds_day.

(** [DS_SIC.sic.sel(time=slice(...))]: a squeezed dataset has no [time]
    dimension and the selection raises (a [ValueError] in current xarray,
    a [KeyError] in some releases; the statements below do not depend on
    which). *)
Definition sic_sel_day (DS_SIC : sic_dataset) (day : Z) : result (list sic_slice) :=
  match DS_SIC with
  | SicSeries l _ _ => Ok (sel_time sic_time l (day_lower day) (day_upper day))
  | SicScalar _ _ _ => Err ValueError
  end.

Definition sic_lat (d : sic_dataset) : list fval :=
  match d with SicSeries _ lat _ => lat | SicScalar _ lat _ => lat end.
Definition sic_lon (d : sic_dataset) : list fval :=
  match d with SicSeries _ _ lon => lon | SicScalar _ _ lon => lon end.

(** [da.mean("time")]: cell by cell over the selected times; all slices
    have the shape of the grid. *)
Definition mean_over_time (l : list sic_slice) : list fval :=
  match l with
  | [] => []
  | s0 :: _ =>
      map (fun i => nanmean (map (fun s => nth i (sic s) NaN) l))
          (seq 0 (length (sic s0)))
  end.

Record dashboard : Type := mk_dashboard {
  mp : map_plot;
  ts : list scatter
}.

Definition view (DS : nav_dataset) (DS_SIC : sic_dataset)
    (day : Z) (coarsen : Z) (t_range : time_range)
    (pointsize : Z) (alpha : Q) (show_sic : bool) : result dashboard :=
  ds_day ← _ds_for_view DS day coarsen t_range;
  ds_sic_day ← sic_sel_day DS_SIC day;
  let ds_sic_day_mean :=
    if show_sic && (0 <? length ds_sic_day)%nat
    then Some {| m_sic := mean_over_time ds_sic_day;
                 m_lat := sic_lat DS_SIC;
                 m_lon := sic_lon DS_SIC |}
    else None in
  let ts := build_timeseries ds_day pointsize alpha in
  let mp := build_map ds_day ds_sic_day_mean (pointsize + 1) alpha show_sic in
  Ok {| mp := mp; ts := ts |}.

(** ** The application state

    The module-level objects of the script: the two cached datasets, the
    widgets, and the output of [view] that the template displays. *)

Record app : Type := mk_app {
  DS : nav_dataset;
  DS_SIC : sic_dataset;
  w_day : Z;
  w_coarsen : Z;
  w_pointsize : Z;
  w_alpha : Q;
  w_show_sic : bool;
  w_timerange : DatetimeRangeSlider;
  pane : option dashboard
}.

Definition set_w_timerange (v : DatetimeRangeSlider) (st : app) : app :=
  mk_app (DS st) (DS_SIC st) (w_day st) (w_coarsen st) (w_pointsize st) (w_alpha st)
         (w_show_sic st) v (pane st).
Definition set_pane (v : option dashboard) (st : app) : app :=
  mk_app (DS st) (DS_SIC st) (w_day st) (w_coarsen st) (w_pointsize st) (w_alpha st)
         (w_show_sic st) (w_timerange st) v.

(** The watcher of [w_day], as far as the widgets go: the slider is set
    by [_make_timerange], and a call that raises leaves it as it was.
    The evaluation of [view] that the assignment of the slider value
    triggers is part of [_on_day_change_m] below. *)
Definition _on_day_change (day : Z) (st : app) : app :=
  match _make_timerange (DS st) day (w_timerange st) with
  | Ok w => set_w_timerange w st
  | Err _ => st
  end.

(** ** Startup: the module body *)

Definition NO_DAYS : string :=
  "No days found in dataset — check the dataset path/time coordinate.".

(** The module body: load, the guard on [DAYS], the widgets with their
    initial values, the time range of the first day, and the template,
    whose construction evaluates [view] once on the widget values; an
    exception of that evaluation aborts the import. *)
Definition startup (fs : filesystem) : result app :=
  '(ds, ds_sic) ← load_data fs;
  let days := DAYS ds in
  if (length days =? 0)%nat
  then Err (RuntimeError NO_DAYS)
  else
    let st :=
      {| DS := ds; DS_SIC := ds_sic;
         w_day := nth 0 days 0;
         w_coarsen := 20;
         w_pointsize := 5;
         w_alpha := 9 # 10;
         w_show_sic := true;
         w_timerange := mk_slider None None None;
         pane := None |} in
    w ← _make_timerange (DS st) (w_day st) (w_timerange st);
    let st := set_w_timerange w st in
    out ← view (DS st) (DS_SIC st) (w_day st) (w_coarsen st)
               (slider_value (w_timerange st)) (w_pointsize st) (w_alpha st)
               (w_show_sic st);
    Ok (set_pane (Some out) st).

(** ** The view slicer as the specification words it

    "Selects the day's records, optionally block-averages over a fixed
    number of time points (trimming any ragged remainder), then filters to
    the requested time window."  These definitions follow that sentence,
    not the code; [_ds_for_view] is compared with them below. *)

Definition in_day (day : Z) (s : sample) : bool := strftime_day (time s) =? day.

Definition spec_select_day (ds : nav_dataset) (day : Z) : nav_dataset :=
  List.filter (in_day day) ds.

(** Consecutive groups of [k] records; [cur] is the group being filled,
    and a group still incomplete at the end is dropped. *)
Fixpoint spec_blocks (k : nat) (cur : list sample) (l : list sample) : list (list sample) :=
  match l with
  | [] => []
  | x :: r =>
      let cur' := cur ++ [x] in
      if (length cur' =? k)%nat
      then cur' :: spec_blocks k [] r
      else spec_blocks k cur' r
  end.

(** The average of a group: every variable and coordinate of the group
    is replaced by its mean over the group (the library's mean of floats
    for the values, of timestamps for the time). *)
Definition spec_average (group : list sample) : sample :=
  mk_sample (mean_time (map time group))
            (nanmean (map altitude group))
            (nanmean (map pitch group))
            (nanmean (map roll group))
            (nanmean (map t_kt19 group))
            (nanmean (map latitude group))
            (nanmean (map longitude group))
            (nanmean (map hour_of_day group)).

Definition spec_block_average (k : nat) (ds : nav_dataset) : nav_dataset :=
  map spec_average (spec_blocks k [] ds).

Definition in_window (t0 t1 : datetime64) (s : sample) : bool :=
  (t0 <=? time s) && (time s <=? t1).

Definition spec_filter_window (ds : nav_dataset) (t_range : time_range) : nav_dataset :=
  match t_range with
  | Some (Some t0, Some t1) => List.filter (in_window t0 t1) ds
  | _ => ds
  end.

Definition spec_view (DS : nav_dataset) (day : Z) (coarsen : Z) (t_range : time_range)
  : nav_dataset :=
  let selected := spec_select_day DS day in
  let averaged :=
    if 1 <? coarsen then spec_block_average (Z.to_nat coarsen) selected else selected in
  spec_filter_window averaged t_range.

(** ** Predicates used in the statements *)

(** Every finite cell of the loaded SIC field lies in the valid range. *)
Definition sic_in_valid_range (d : sic_dataset) : Prop :=
  forall q, In (Some q) (sic_cells d) -> (0 <= q)%Q /\ (q <= 100)%Q.

(** What the load does to one cell [v] of the file, giving [w]: a finite
    value up to 100 is kept, a larger one and a NaN become NaN. *)
Definition masked_above_100 (v w : fval) : Prop :=
  match v with
  | Some q => ((q <= 100)%Q -> w = Some q) /\ (~ (q <= 100)%Q -> w = NaN)
  | None => w = NaN
  end.

(** [t] is the least, respectively the greatest, timestamp among the
    records of [DS] that fall on [day]. *)
Definition is_day_minimum (DS : nav_dataset) (day : Z) (t : datetime64) : Prop :=
  (exists s, In s DS /\ strftime_day (time s) = day /\ time s = t) /\
  (forall s, In s DS -> strftime_day (time s) = day -> t <= time s).

Definition is_day_maximum (DS : nav_dataset) (day : Z) (t : datetime64) : Prop :=
  (exists s, In s DS /\ strftime_day (time s) = day /\ time s = t) /\
  (forall s, In s DS -> strftime_day (time s) = day -> time s <= t).

(** [p] is the first element of [candidates] that exists on [fs]. *)
Definition is_first_existing (fs : filesystem) (candidates : list string) (p : string) : Prop :=
  exists before after,
    candidates = before ++ p :: after /\
    path_exists fs p = true /\
    Forall (fun q => path_exists fs q = false) before.






(** The output with its raster layer removed. *)
Definition without_raster (d : dashboard) : dashboard :=
  {| mp := Points (track_of (mp d)); ts := ts d |}.

(** ** Example data *)

Module Examples.

(** A timestamp from a day number and a second of that day. *)
Definition at_ (day sec : Z) : datetime64 := day * NS_PER_DAY + sec * NS_PER_SECOND.

Definition rec_ (t : datetime64) (alt lat lon : Q) : nav_record :=
  {| r_time := t; r_altitude := Some alt; r_pitch := Some 1%Q; r_roll := NaN;
     r_t_kt19 := Some 250%Q; r_latitude := Some lat; r_longitude := Some lon |}.

(** Two flight days, five and two records. *)
Definition nav_records : list nav_record :=
  [ rec_ (at_ 19083 36000) 100 78 10;
    rec_ (at_ 19083 36001) 110 (781 # 10) 11;
    rec_ (at_ 19083 36002) 120 (782 # 10) 12;
    rec_ (at_ 19083 36003) 130 (783 # 10) 13;
    rec_ (at_ 19083 36004) 140 (784 # 10) 14;
    rec_ (at_ 19084 32400) 90 79 15;
    rec_ (at_ 19084 32401) 95 79 16 ].

(** A grid of four cells on three times, two of them on the first day;
    it holds a fill value above 100, a negative value and a NaN. *)
Definition sic_april : sic_file :=
  {| f_slices :=
       [ {| sic_time := at_ 19083 0; sic := [Some 50%Q; Some 255%Q; Some (-5)%Q; NaN] |};
         {| sic_time := at_ 19083 43200; sic := [Some 70%Q; Some 100%Q; Some 255%Q; NaN] |};
         {| sic_time := at_ 19084 0; sic := [Some 0%Q; Some 10%Q; Some 20%Q; Some 30%Q] |} ];
     f_lat := [Some 80%Q; Some 80%Q; Some 81%Q; Some 81%Q];
     f_lon := [Some 10%Q; Some 11%Q; Some 10%Q; Some 11%Q] |}.

Definition nav_path : string := "data/observations/processed/bbr_BACSAM2_p6_processed.nc".
Definition sic_path : string :=
  "../../../data/observations/processed/satellite_unified/sic_modis-aqua_amsr2-gcom-w1_merged_nh_1000m_APRIL.nc".

(** The navigation file at the first candidate, the SIC file at the
    second. *)
Definition disk : filesystem :=
  <[ nav_path := NavFile nav_records ]> (<[ sic_path := SicFile sic_april ]> ∅).

(** A disk with the SIC file only. *)
Definition disk_without_nav : filesystem :=
  <[ sic_path := SicFile sic_april ]> ∅.

(** A disk whose navigation file has no record. *)
Definition disk_empty_nav : filesystem :=
  <[ nav_path := NavFile [] ]> (<[ sic_path := SicFile sic_april ]> ∅).

Definition nav : nav_dataset := map assign_hour_of_day nav_records.
Definition ice : sic_dataset := where_sic (squeeze sic_april).

Definition noon : time_range := Some (Some (at_ 19083 36001), Some (at_ 19083 36003)).

Definition full_day : time_range := Some (Some (at_ 19083 36000), Some (at_ 19083 36004)).

(** A longer flight: 24 records on the first day, one per second, and
    two on the next day. *)
Definition flight_records : list nav_record :=
  map (fun i => rec_ (at_ 19083 (36000 + Z.of_nat i))
                     (inject_Z (100 + Z.of_nat i)) 78 (inject_Z (10 + Z.of_nat i)))
      (seq 0 24)
  ++ [ rec_ (at_ 19084 32400) 90 79 15; rec_ (at_ 19084 32401) 95 79 16 ].

Definition flight : nav_dataset := map assign_hour_of_day flight_records.

Definition flight_disk : filesystem :=
  <[ nav_path := NavFile flight_records ]> (<[ sic_path := SicFile sic_april ]> ∅).

Definition flight_day : time_range := Some (Some (at_ 19083 36000), Some (at_ 19083 36023)).

(** The widgets once [flight_disk] is loaded: the first day is selected
    and the slider spans it. *)
Definition booted_slider : DatetimeRangeSlider :=
  mk_slider (Some (at_ 19083 36000)) (Some (at_ 19083 36023)) flight_day.

Definition booted : app :=
  {| DS := flight; DS_SIC := ice;
     w_day := 19083; w_coarsen := 20; w_pointsize := 5; w_alpha := 9 # 10;
     w_show_sic := true;
     w_timerange := booted_slider;
     pane := None |}.

(** The application after startup on [flight_disk]. *)
Definition started : app :=
  match startup flight_disk with
  | Ok st => st
  | Err _ => booted
  end.

End Examples.

(** ** The objects of the running program

    The same functions with the Python objects made explicit: a store
    maps a location to the object it holds, a library call reads its
    arguments from the store and puts its result at a new location, and
    an attribute assignment overwrites the object at a location.  The
    module-level names [DS], [DS_SIC], [w_timerange] and the displayed
    pane are locations. *)

Module Store.

Abbreviation loc := positive.

Inductive obj : Type :=
  | ONav (ds : nav_dataset)
  | OSic (d : sic_dataset)
  | OSicArray (l : list sic_slice)
  | OSicMean (m : sic_day_mean)
  | OSlider (w : DatetimeRangeSlider)
  | OFrame (df : nav_dataset)
  | OPlot (p : map_plot)
  | OLayout (l : list scatter)
  | OColumn (d : dashboard)
  | OPane (shown : option loc).

Abbreviation store := (gmap loc obj).

(** A computation on the store; the store is kept when it raises. *)
Definition M (A : Type) : Type := store -> result A * store.

#[global] Instance M_ret : MRet M := fun _ a σ => (Ok a, σ).
#[global] Instance M_bind : MBind M := fun _ _ k m σ =>
  match m σ with
  | (Ok a, σ') => k a σ'
  | (Err e, σ') => (Err e, σ')
  end.

Definition raise {A} (e : exn) : M A := fun σ => (Err e, σ).

Definition lift {A} (r : result A) : M A := fun σ => (r, σ).

(** A new object, at a location that holds nothing yet. *)
Definition new (o : obj) : M loc := fun σ =>
  let l := fresh (dom σ) in (Ok l, <[l := o]> σ).

Definition get (l : loc) : M obj := fun σ =>
  match σ !! l with
  | Some o => (Ok o, σ)
  | None => (Err (KeyError "object"), σ)
  end.

(** Assignment to an attribute of the object at [l]. *)
Definition set (l : loc) (o : obj) : M unit := fun σ => (Ok tt, <[l := o]> σ).

Definition get_nav (l : loc) : M nav_dataset :=
  o ← get l; match o with ONav ds => mret ds | _ => raise (AttributeError "time") end.
Definition get_sic (l : loc) : M sic_dataset :=
  o ← get l; match o with OSic d => mret d | _ => raise (AttributeError "sic") end.
Definition get_sic_mean (l : loc) : M sic_day_mean :=
  o ← get l; match o with OSicMean m => mret m | _ => raise (AttributeError "hvplot") end.
Definition get_slider (l : loc) : M DatetimeRangeSlider :=
  o ← get l; match o with OSlider w => mret w | _ => raise (AttributeError "value") end.
Definition get_frame (l : loc) : M nav_dataset :=
  o ← get l; match o with OFrame df => mret df | _ => raise (AttributeError "dropna") end.
Definition get_plot (l : loc) : M map_plot :=
  o ← get l; match o with OPlot p => mret p | _ => raise (AttributeError "opts") end.
Definition get_layout (l : loc) : M (list scatter) :=
  o ← get l; match o with OLayout p => mret p | _ => raise (AttributeError "cols") end.

Record globals : Type := mk_globals {
  g_DS : loc;
  g_DS_SIC : loc;
  g_w_timerange : loc;
  g_pane : loc
}.

(** [ds.sel(...)] gives a new dataset. *)
Definition _sel_day_m (ds : loc) (day : Z) : M loc :=
  v ← get_nav ds;
  new (ONav (_sel_day v day)).

Definition _prep_day_m (ds : loc) (day : Z) (coarsen : Z) : M loc :=
  ds_day ← _sel_day_m ds day;
  if truthy coarsen && (coarsen >? 1)
  then
    v ← get_nav ds_day;
    r ← lift (coarsen_mean coarsen v);
    new (ONav r)
  else mret ds_day.

(** Without a range the very object it was given is returned. *)
Definition _filter_timerange_m (ds_day : loc) (t_range : time_range) : M loc :=
  match t_range with
  | Some (Some t0, Some t1) =>
      v ← get_nav ds_day;
      new (ONav (sel_time time v t0 t1))
  | _ => mret ds_day
  end.

Definition _ds_for_view_m (g : globals) (day : Z) (coarsen : Z) (t_range : time_range)
  : M loc :=
  ds_day ← _prep_day_m (g_DS g) day coarsen;
  ds_day ← _filter_timerange_m ds_day t_range;
  mret ds_day.

Definition build_timeseries_m (ds_day : loc) (size : Z) (alpha : Q) : M loc :=
  v ← get_nav ds_day;
  new (OLayout (build_timeseries v size alpha)).

(** The points of a data frame, and the composite that [build_map]
    returns. *)
Definition hvplot_points (df : nav_dataset) (size : Z) (alpha : Q) : points :=
  {| pt_rows := map (fun s => (time s, longitude s, latitude s, hour_of_day s)) df;
     pt_size := size;
     pt_alpha := alpha |}.

Definition compose_map (show_sic : bool) (ds_sic_day_mean : option sic_day_mean)
    (pts : points) : map_plot :=
  match show_sic, ds_sic_day_mean with
  | true, Some m => Overlay m pts
  | _, _ => Points pts
  end.

(** The data frame is a new object, and so are its copy without NaN
    coordinates and the plot. *)
Definition build_map_m (ds_day : loc) (ds_sic_day_mean : option loc)
    (size : Z) (alpha : Q) (show_sic : bool) : M loc :=
  v ← get_nav ds_day;
  df ← new (OFrame v);
  rows ← get_frame df;
  df ← new (OFrame (dropna rows));
  rows ← get_frame df;
  let pts := hvplot_points rows size alpha in
  m ← match ds_sic_day_mean with
      | Some l => m ← get_sic_mean l; mret (Some m)
      | None => mret None
      end;
  new (OPlot (compose_map show_sic m pts)).

Definition view_m (g : globals) (day : Z) (coarsen : Z) (t_range : time_range)
    (pointsize : Z) (alpha : Q) (show_sic : bool) : M loc :=
  ds_day ← _ds_for_view_m g day coarsen t_range;
  DS_SIC ← get_sic (g_DS_SIC g);
  l ← lift (sic_sel_day DS_SIC day);
  ds_sic_day ← new (OSicArray l);
  ds_sic_day_mean ←
    (if show_sic && (0 <? length l)%nat
     then
       m ← new (OSicMean {| m_sic := mean_over_time l;
                            m_lat := sic_lat DS_SIC;
                            m_lon := sic_lon DS_SIC |});
       mret (Some m)
     else mret None);
  ts ← build_timeseries_m ds_day pointsize alpha;
  mp ← build_map_m ds_day ds_sic_day_mean (pointsize + 1) alpha show_sic;
  ts ← get_layout ts;
  mp ← get_plot mp;
  new (OColumn {| mp := mp; ts := ts |}).

(** The pane evaluates [view] and displays its output. *)
Definition render_m (g : globals) (day : Z) (coarsen : Z) (t_range : time_range)
    (pointsize : Z) (alpha : Q) (show_sic : bool) : M unit :=
  out ← view_m g day coarsen t_range pointsize alpha show_sic;
  set (g_pane g) (OPane (Some out)).

(** [_make_timerange]: the three assignments to the slider, the last of
    which runs [watch], the watchers of the slider value. *)
Definition _make_timerange_m (g : globals) (day : Z) (watch : time_range -> M unit)
  : M unit :=
  dsel ← _sel_day_m (g_DS g) day;
  v ← get_nav dsel;
  t0 ← lift (time_min time v);
  t1 ← lift (time_max time v);
  w ← get_slider (g_w_timerange g);
  set (g_w_timerange g) (OSlider (mk_slider (Some t0) (slider_end w) (slider_value w)));;
  w ← get_slider (g_w_timerange g);
  set (g_w_timerange g) (OSlider (mk_slider (slider_start w) (Some t1) (slider_value w)));;
  w ← get_slider (g_w_timerange g);
  set (g_w_timerange g)
      (OSlider (mk_slider (slider_start w) (slider_end w) (Some (Some t0, Some t1))));;
  watch (Some (Some t0, Some t1)).

(** The callback of the day selector, once the template is built: the
    new slider value makes the pane evaluate [view] on the widget values
    of the moment. *)
Definition _on_day_change_m (g : globals) (day : Z)
    (coarsen : Z) (pointsize : Z) (alpha : Q) (show_sic : bool) : M unit :=
  _make_timerange_m g day
    (fun t_range => render_m g day coarsen t_range pointsize alpha show_sic).

(** What the event loop runs: an evaluation of the view on given widget
    values, or the day-change callback. *)
Inductive call : Type :=
  | CallView (day : Z) (coarsen : Z) (t_range : time_range)
             (pointsize : Z) (alpha : Q) (show_sic : bool)
  | CallDayChange (day : Z) (coarsen : Z) (pointsize : Z) (alpha : Q) (show_sic : bool).

Definition exec_call (g : globals) (c : call) : M unit :=
  match c with
  | CallView day k r size alpha show => render_m g day k r size alpha show
  | CallDayChange day k size alpha show => _on_day_change_m g day k size alpha show
  end.

(** One callback runs to completion before the next; one that raises
    leaves the store as it was when it raised. *)
Fixpoint run_calls (g : globals) (cs : list call) (σ : store) : store :=
  match cs with
  | [] => σ
  | c :: rest => run_calls g rest (snd (exec_call g c σ))
  end.

(** The four module-level objects are in the store. *)
Definition boots (g : globals) (ds : nav_dataset) (d : sic_dataset) (σ : store) : Prop :=
  σ !! g_DS g = Some (ONav ds) /\
  σ !! g_DS_SIC g = Some (OSic d) /\
  (exists w, σ !! g_w_timerange g = Some (OSlider w)) /\
  (exists p, σ !! g_pane g = Some (OPane p)).

(** A computation keeps the module-level objects where they are (it may
    replace the slider by a slider and the pane by a pane). *)
Definition keeps_sources {A} (g : globals) (m : M A) : Prop :=
  forall ds d σ, boots g ds d σ -> boots g ds d (snd (m σ)).

(** [m], run in [σ], ends in [σ'] with [r]; nothing that was in the store
    is changed. *)
Definition runs_to {A} (m : M A) (σ : store) (r : result A) (σ' : store) : Prop :=
  m σ = (r, σ') /\ σ ⊆ σ'.

(** [m], run in [σ], gives what the function on values [r] gives: the
    same exception, or a location that holds the same value. *)
Definition computes {A} (m : M loc) (σ : store) (r : result A) (box : A -> obj) : Prop :=
  exists σ',
    match r with
    | Ok a => exists l, runs_to m σ (Ok l) σ' /\ σ' !! l = Some (box a)
    | Err e => runs_to m σ (Err e) σ'
    end.

(** Example: the module-level objects at locations 1 to 4. *)
Definition names : globals := mk_globals 1 2 3 4.

Definition heap : store :=
  <[ 1%positive := ONav Examples.flight ]>
    (<[ 2%positive := OSic Examples.ice ]>
       (<[ 3%positive := OSlider Examples.booted_slider ]>
          (<[ 4%positive := OPane None ]> ∅))).

Definition session : list call :=
  [ CallView 19083 20 Examples.flight_day 5 (9 # 10) true;
    CallView 19083 300 Examples.flight_day 5 (9 # 10) true;
    CallDayChange 19084 2 5 (9 # 10) false;
    CallDayChange 19090 2 5 (9 # 10) false;
    CallView 19084 1 None 7 (1 # 2) true ].

End Store.

(** ** Colormap names *)

(** What [getattr(c, "name", None)] finds on a colormap object: no such
    attribute, a string, or a property that raises. *)
Inductive attribute : Type :=
  | AttrMissing
  | AttrValue (name : string)
  | AttrRaises.

(** The argument of [_cmap_name]: a string, or a colormap object. *)
Inductive colormap : Type :=
  | CmapStr (s : string)
  | CmapObject (name : attribute).

Definition getattr_name (a : attribute) : result (option string) :=
  match a with
  | AttrMissing => Ok None
  | AttrValue name => Ok (Some name)
  | AttrRaises => Err (AttributeError "name")
  end.

(** [name or "viridis"]: [None] and the empty string are false. *)
Definition or_viridis (name : option string) : string :=
  match name with
  | Some s => if (String.length s =? 0)%nat then "viridis" else s
  | None => "viridis"
  end.

Definition _cmap_name (c : colormap) : string :=
  match c with
  | CmapStr s => s
  | CmapObject a =>
      match getattr_name a with
      | Ok name => or_viridis name
      | Err _ => "viridis"
      end
  end.

(** The values the two names are bound to when the plots are built. *)
Definition ICE_CMAP : colormap := CmapStr "Blues_r".
Definition HAWAII : colormap := CmapStr "viridis".

(** ** Hour ticks *)

(** [f"{i:02d}"]: the decimal numeral, zero-padded to two characters. *)
Definition format_02d (i : Z) : string :=
  let s := NilZero.string_of_int (Z.to_int i) in
  if (String.length s <? 2)%nat then ("0" +:+ s)%string else s.

(** [range(start, stop, 1)] *)
Definition range (start stop : Z) : list Z :=
  map (fun n => start + Z.of_nat n) (seq 0 (Z.to_nat (stop - start))).

(** A dict comprehension [{i: f(i) for i in keys}]: the keys are inserted
    in order. *)
Definition dict_comprehension {V} (f : Z -> V) (keys : list Z) : gmap Z V :=
  fold_left (fun m i => <[i := f i]> m) keys ∅.

Definition hour_label (i : Z) : string := (format_02d i +:+ ":00")%string.

Definition _hour_ticks : gmap Z string :=
  dict_comprehension hour_label (range 0 25).

(** ** Further predicates *)

(** The hour of day of a record is finite and lies in [0, 24). *)
Definition hod_in_range (s : sample) : Prop :=
  exists q, hour_of_day s = Some q /\ (0 <= q)%Q /\ (q < 24)%Q.

(** The records of [ds] day by day, over the given days. *)
Definition day_slices (ds : nav_dataset) (days : list Z) : list nav_dataset :=
  map (_sel_day ds) days.

(** The time of a row of the track, and of a point of a panel. *)
Definition row_time (r : datetime64 * fval * fval * fval) : datetime64 :=
  let '(t, _, _, _) := r in t.
Definition point_time (p : datetime64 * fval * fval) : datetime64 :=
  let '(t, _, _) := p in t.

(** ** Further example data *)

Module MoreExamples.

(** A SIC file with a single time. *)
Definition sic_one_time : sic_file :=
  {| f_slices := [ {| sic_time := Examples.at_ 19083 0; sic := [Some 50%Q; Some 255%Q] |} ];
     f_lat := [Some 80%Q; Some 80%Q];
     f_lon := [Some 10%Q; Some 11%Q] |}.

Definition disk_one_time : filesystem :=
  <[ Examples.nav_path := NavFile Examples.nav_records ]>
    (<[ Examples.sic_path := SicFile sic_one_time ]> ∅).

Definition ice_one_time : sic_dataset := where_sic (squeeze sic_one_time).

(** A navigation dataset with a gap in the coordinates of one record. *)
Definition nav_with_gap : nav_dataset :=
  map assign_hour_of_day
    [ Examples.rec_ (Examples.at_ 19083 36000) 100 78 10;
      {| r_time := Examples.at_ 19083 36001; r_altitude := Some 110%Q;
         r_pitch := NaN; r_roll := NaN; r_t_kt19 := NaN;
         r_latitude := NaN; r_longitude := Some 11%Q |};
      Examples.rec_ (Examples.at_ 19083 36002) 120 (782 # 10) 12 ].

End MoreExamples.

(** * Properties *)

(** ** The code on the example data *)

Example DAYS_nav : DAYS Examples.nav = [19083; 19084].
Proof. reflexivity. Qed.

Example sel_day_nav :
  map time (_sel_day Examples.nav 19084) = [Examples.at_ 19084 32400; Examples.at_ 19084 32401].
Proof. reflexivity. Qed.

Example prep_day_nav_2 :
  map time <$> _prep_day Examples.nav 19083 2
  = Ok [Examples.at_ 19083 36000 + 500000000; Examples.at_ 19083 36002 + 500000000].
Proof. vm_compute. reflexivity. Qed.

Example prep_day_nav_5 : length <$> _prep_day Examples.nav 19083 5 = Ok 1%nat.
Proof. vm_compute. reflexivity. Qed.

Example prep_day_nav_6 : _prep_day Examples.nav 19083 6 = Err ValueError.
Proof. reflexivity. Qed.

Example view_short_day :
  view Examples.nav Examples.ice 19083 20 Examples.full_day 5 (9 # 10) true
  = Err ValueError.
Proof. reflexivity. Qed.

Example startup_short_day : startup Examples.disk = Err ValueError.
Proof. vm_compute. reflexivity. Qed.

Example startup_flight : startup Examples.flight_disk = Ok Examples.started.
Proof. vm_compute. reflexivity. Qed.

Example filter_timerange_nav :
  map time (_filter_timerange (_sel_day Examples.nav 19083) Examples.noon)
  = [Examples.at_ 19083 36001; Examples.at_ 19083 36002; Examples.at_ 19083 36003].
Proof. reflexivity. Qed.

Example where_fill_value : where_le_100 (Some 255%Q) = NaN.
Proof. reflexivity. Qed.

Example where_negative : where_le_100 (Some (-5)%Q) = Some (-5)%Q.
Proof. reflexivity. Qed.

Example resolve_second_candidate :
  SIC_PATH Examples.disk = Ok Examples.sic_path.
Proof. vm_compute. reflexivity. Qed.

Example view_squeezed_sic :
  view Examples.nav
       (SicScalar {| sic_time := Examples.at_ 19083 0; sic := [Some 50%Q] |} [] [])
       19083 1 None 5 (9 # 10) true
  = Err ValueError.
Proof. reflexivity. Qed.

(** ** Days and timestamps *)

Lemma strftime_day_bounds (t : datetime64) (day : Z) :
  strftime_day t = day <-> day_lower day <= t <= day_upper day.
Proof.
  unfold strftime_day, day_lower, day_upper.
  change NS_PER_DAY with 86400000000000.
  split; intros H; Z.div_mod_to_equations; lia.
Qed.

Lemma strftime_day_eqb (t : datetime64) (day : Z) :
  (strftime_day t =? day) = (day_lower day <=? t) && (t <=? day_upper day).
Proof.
  destruct (Z.eqb_spec (strftime_day t) day) as [E | E];
    rewrite strftime_day_bounds in E; symmetry.
  - apply andb_true_iff. split; apply Z.leb_le; lia.
  - apply andb_false_iff.
    destruct (Z.leb_spec (day_lower day) t); [right | left; reflexivity].
    apply Z.leb_gt. lia.
Qed.

Lemma in_day_bounds (day : Z) (s : sample) :
  in_day day s = in_window (day_lower day) (day_upper day) s.
Proof. apply strftime_day_eqb. Qed.

(** ** Label-based slicing on an increasing index *)

Section TimeIndexedFacts.
Context {A : Type} (tm : A -> datetime64).

Lemma is_monotonic_increasing_sound (l : list A) :
  is_monotonic_increasing tm l = true -> increasing tm l.
Proof.
  induction l as [| a r IH]; intros H; [constructor |].
  destruct r as [| b r']; [repeat constructor |].
  cbn [is_monotonic_increasing] in H.
  apply andb_true_iff in H as [Hab Hr]. apply Z.leb_le in Hab.
  specialize (IH Hr). constructor; [exact IH |].
  inversion IH as [| ? ? _ Hb]; subst.
  constructor; [exact Hab |].
  eapply Forall_impl; [exact Hb |]. cbn. intros; lia.
Qed.

Lemma is_monotonic_increasing_complete (l : list A) :
  increasing tm l -> is_monotonic_increasing tm l = true.
Proof.
  induction 1 as [| a r Hr IH Ha]; [reflexivity |].
  destruct r as [| b r']; [reflexivity |].
  cbn [is_monotonic_increasing]. apply andb_true_iff. split; [| exact IH].
  apply Z.leb_le. inversion Ha; assumption.
Qed.

Lemma filter_none (f : A -> bool) (l : list A) :
  Forall (fun a => f a = false) l -> List.filter f l = [].
Proof.
  induction 1 as [| a r Ha _ IH]; [reflexivity |].
  cbn. rewrite Ha. exact IH.
Qed.

Lemma searchsorted_left_0 (l : list A) (lo : datetime64) :
  Forall (fun a => lo <= tm a) l -> searchsorted_left tm l lo = O.
Proof.
  destruct 1 as [| a r Ha _]; [reflexivity |].
  cbn. destruct (Z.ltb_spec (tm a) lo); [lia | reflexivity].
Qed.

(** On an increasing index the positional slice between the two
    insertion points holds exactly the rows whose label lies between
    the bounds. *)
Lemma sel_time_filter (l : list A) (lo hi : datetime64) :
  increasing tm l -> sel_time tm l lo hi = List.filter (between tm lo hi) l.
Proof.
  unfold sel_time, isel.
  induction 1 as [| a r Hr IH Ha]; [reflexivity |].
  cbn [searchsorted_left searchsorted_right List.filter]. unfold between at 1.
  destruct (Z.ltb_spec (tm a) lo) as [Hlo | Hlo];
    destruct (Z.leb_spec (tm a) hi) as [Hhi | Hhi].
  - replace (lo <=? tm a) with false by (symmetry; apply Z.leb_gt; lia).
    cbn. exact IH.
  - replace (lo <=? tm a) with false by (symmetry; apply Z.leb_gt; lia).
    cbn. symmetry. apply filter_none.
    eapply Forall_impl; [exact Ha |]. cbn. intros b Hb.
    unfold between. apply andb_false_iff. right. apply Z.leb_gt. lia.
  - replace (lo <=? tm a) with true by (symmetry; apply Z.leb_le; lia).
    cbn. f_equal. rewrite <- IH.
    rewrite searchsorted_left_0.
    + rewrite Nat.sub_0_r. reflexivity.
    + eapply Forall_impl; [exact Ha |]. cbn. intros; lia.
  - rewrite andb_false_r. cbn. symmetry. apply filter_none.
    eapply Forall_impl; [exact Ha |]. cbn. intros b Hb.
    unfold between. apply andb_false_iff. right. apply Z.leb_gt. lia.
Qed.

Lemma increasing_filter (f : A -> bool) (l : list A) :
  increasing tm l -> increasing tm (List.filter f l).
Proof.
  induction 1 as [| a r Hr IH Ha]; [constructor |].
  cbn. destruct (f a); [| exact IH].
  constructor; [exact IH |].
  rewrite List.Forall_forall in *. intros b Hb.
  apply List.filter_In in Hb as [Hb _]. auto.
Qed.

Lemma filter_idempotent (f : A -> bool) (l : list A) :
  List.filter f (List.filter f l) = List.filter f l.
Proof.
  induction l as [| a r IH]; [reflexivity |].
  cbn. destruct (f a) eqn:E; [| exact IH].
  cbn. rewrite E, IH. reflexivity.
Qed.

Lemma sel_time_increasing (l : list A) (lo hi : datetime64) :
  increasing tm l -> increasing tm (sel_time tm l lo hi).
Proof.
  intros H. rewrite sel_time_filter by exact H. apply increasing_filter, H.
Qed.

(** Selecting twice with the same bounds selects once. *)
Lemma sel_time_idempotent (l : list A) (lo hi : datetime64) :
  increasing tm l ->
  sel_time tm (sel_time tm l lo hi) lo hi = sel_time tm l lo hi.
Proof.
  intros H.
  rewrite (sel_time_filter (sel_time tm l lo hi)) by (apply sel_time_increasing, H).
  rewrite sel_time_filter by exact H.
  apply filter_idempotent.
Qed.

(** The extremes of the [time] coordinate. *)
Lemma fold_min_spec (r : list A) (m0 : Z) :
  let m := fold_left (fun m b => Z.min m (tm b)) r m0 in
  m <= m0 /\ Forall (fun b => m <= tm b) r /\ (m = m0 \/ Exists (fun b => tm b = m) r).
Proof.
  revert m0. induction r as [| a r IH]; intros m0; cbn.
  - split; [lia |]. split; [constructor | left; reflexivity].
  - destruct (IH (Z.min m0 (tm a))) as (H1 & H2 & H3).
    split; [lia |]. split.
    + constructor; [lia | exact H2].
    + destruct H3 as [H3 | H3].
      * destruct (Z.min_spec m0 (tm a)) as [[_ E] | [_ E]].
        -- left. lia.
        -- right. constructor. lia.
      * right. apply Exists_cons_tl. exact H3.
Qed.

Lemma fold_max_spec (r : list A) (m0 : Z) :
  let m := fold_left (fun m b => Z.max m (tm b)) r m0 in
  m0 <= m /\ Forall (fun b => tm b <= m) r /\ (m = m0 \/ Exists (fun b => tm b = m) r).
Proof.
  revert m0. induction r as [| a r IH]; intros m0; cbn.
  - split; [lia |]. split; [constructor | left; reflexivity].
  - destruct (IH (Z.max m0 (tm a))) as (H1 & H2 & H3).
    split; [lia |]. split.
    + constructor; [lia | exact H2].
    + destruct H3 as [H3 | H3].
      * destruct (Z.max_spec m0 (tm a)) as [[_ E] | [_ E]].
        -- right. constructor. lia.
        -- left. lia.
      * right. apply Exists_cons_tl. exact H3.
Qed.

Lemma time_min_spec (l : list A) (m : datetime64) :
  time_min tm l = Ok m ->
  (exists a, In a l /\ tm a = m) /\ (forall a, In a l -> m <= tm a).
Proof.
  destruct l as [| a r]; [discriminate |].
  cbn. intros [= <-].
  destruct (fold_min_spec r (tm a)) as (H1 & H2 & H3). cbn in *.
  split.
  - destruct H3 as [E | E].
    + exists a. split; [left; reflexivity | symmetry; exact E].
    + apply List.Exists_exists in E as (b & Hb & E). exists b. split; [right; exact Hb | exact E].
  - intros b [<- | Hb]; [exact H1 |].
    rewrite List.Forall_forall in H2. apply H2, Hb.
Qed.

Lemma time_max_spec (l : list A) (m : datetime64) :
  time_max tm l = Ok m ->
  (exists a, In a l /\ tm a = m) /\ (forall a, In a l -> tm a <= m).
Proof.
  destruct l as [| a r]; [discriminate |].
  cbn. intros [= <-].
  destruct (fold_max_spec r (tm a)) as (H1 & H2 & H3). cbn in *.
  split.
  - destruct H3 as [E | E].
    + exists a. split; [left; reflexivity | symmetry; exact E].
    + apply List.Exists_exists in E as (b & Hb & E). exists b. split; [right; exact Hb | exact E].
  - intros b [<- | Hb]; [exact H1 |].
    rewrite List.Forall_forall in H2. apply H2, Hb.
Qed.

Lemma length_reshape (k n : nat) (l : list A) : length (reshape k n l) = n.
Proof.
  revert l. induction n as [| n IH]; intros l; cbn; [reflexivity |].
  rewrite IH. reflexivity.
Qed.

Lemma length_coarsen_trim (k : nat) (l : list A) :
  length (coarsen_trim k l) = (length l / k)%nat.
Proof. unfold coarsen_trim. apply length_reshape. Qed.
End TimeIndexedFacts.

(** ** Coarsening *)

Lemma Zsum_lower (l : list Z) (lo : Z) :
  Forall (fun x => lo <= x) l -> Z.of_nat (length l) * lo <= Zsum l.
Proof.
  induction 1 as [| x r Hx _ IH]; cbn [Zsum fold_right length]; [lia |].
  fold (Zsum r). lia.
Qed.

Lemma Zsum_upper (l : list Z) (hi : Z) :
  Forall (fun x => x <= hi) l -> Zsum l <= Z.of_nat (length l) * hi.
Proof.
  induction 1 as [| x r Hx _ IH]; cbn [Zsum fold_right length]; [lia |].
  fold (Zsum r). lia.
Qed.

Lemma mean_time_lower (l : list Z) (lo : Z) :
  (0 < length l)%nat -> Forall (fun x => lo <= x) l -> lo <= mean_time l.
Proof.
  intros Hlen H. unfold mean_time.
  apply Z.div_le_lower_bound; [lia | apply Zsum_lower, H].
Qed.

Lemma mean_time_upper (l : list Z) (hi : Z) :
  (0 < length l)%nat -> Forall (fun x => x <= hi) l -> mean_time l <= hi.
Proof.
  intros Hlen H. unfold mean_time.
  apply Z.div_le_upper_bound; [lia | apply Zsum_upper, H].
Qed.

Lemma reshape_lower (k n : nat) (l : list sample) (lo : Z) :
  (1 <= k)%nat -> (k * n <= length l)%nat ->
  Forall (fun s => lo <= time s) l ->
  Forall (fun s => lo <= time s) (map mean_block (reshape k n l)).
Proof.
  intros Hk. revert l. induction n as [| n IH]; intros l Hlen H; cbn; [constructor |].
  constructor.
  - cbn. apply mean_time_lower.
    + rewrite length_map, length_take. lia.
    + apply Forall_map. apply Forall_take, H.
  - apply IH; [rewrite length_drop; lia | apply Forall_drop, H].
Qed.

Lemma reshape_increasing (k n : nat) (l : list sample) :
  (1 <= k)%nat -> (k * n <= length l)%nat ->
  increasing time l -> increasing time (map mean_block (reshape k n l)).
Proof.
  intros Hk. revert l. induction n as [| n IH]; intros l Hlen H; cbn; [constructor |].
  pose proof H as Happ. rewrite <- (take_drop k l) in Happ.
  constructor.
  - apply IH; [rewrite length_drop; lia |].
    exact (StronglySorted_app_1_r _ _ _ Happ).
  - apply reshape_lower; [exact Hk | rewrite length_drop; lia |].
    apply List.Forall_forall. intros x Hx. cbn.
    apply mean_time_upper.
    + rewrite length_map, length_take. lia.
    + apply Forall_map. apply List.Forall_forall. intros y Hy. cbn.
      apply (StronglySorted_app_1_elem_of _ _ _ y x Happ);
        apply list_elem_of_In; assumption.
Qed.

Lemma increasing_take {A} (tm : A -> datetime64) (n : nat) (l : list A) :
  increasing tm l -> increasing tm (take n l).
Proof.
  intros H. rewrite <- (take_drop n l) in H.
  exact (StronglySorted_app_1_l _ _ _ H).
Qed.

Lemma coarsen_trim_take (k : nat) (ds : nav_dataset) :
  coarsen_trim k ds = reshape k (length ds / k) (take (k * (length ds / k)) ds).
Proof. unfold coarsen_trim, isel. rewrite Nat.sub_0_r, drop_0. reflexivity. Qed.

Lemma coarsen_trim_nil (k : nat) (ds : nav_dataset) :
  coarsen_trim k ds = [] <-> (length ds / k = 0)%nat.
Proof.
  rewrite <- (length_coarsen_trim k ds).
  destruct (coarsen_trim k ds); cbn; split; congruence.
Qed.

(** What the coarsening returns, and when it raises. *)
Lemma coarsen_mean_Ok (k : Z) (ds : nav_dataset) :
  (length ds / Z.to_nat k <> 0)%nat ->
  coarsen_mean k ds = Ok (map mean_block (coarsen_trim (Z.to_nat k) ds)).
Proof.
  intros H. unfold coarsen_mean.
  destruct (coarsen_trim (Z.to_nat k) ds) eqn:E; [| reflexivity].
  apply coarsen_trim_nil in E. contradiction.
Qed.

Lemma coarsen_mean_Err (k : Z) (ds : nav_dataset) :
  (length ds / Z.to_nat k = 0)%nat -> coarsen_mean k ds = Err ValueError.
Proof.
  intros H. unfold coarsen_mean. apply coarsen_trim_nil in H. rewrite H. reflexivity.
Qed.

Lemma coarsen_mean_inv (k : Z) (ds out : nav_dataset) :
  coarsen_mean k ds = Ok out ->
  out = map mean_block (coarsen_trim (Z.to_nat k) ds) /\
  (length ds / Z.to_nat k <> 0)%nat.
Proof.
  unfold coarsen_mean. destruct (coarsen_trim (Z.to_nat k) ds) eqn:E; [discriminate |].
  intros [= <-]. split; [reflexivity |].
  intros H. apply coarsen_trim_nil in H. congruence.
Qed.

(** Block means of an increasing index are increasing. *)
Lemma coarsen_windows_increasing (k : Z) (ds : nav_dataset) :
  1 <= k -> increasing time ds ->
  increasing time (map mean_block (coarsen_trim (Z.to_nat k) ds)).
Proof.
  intros Hk H. rewrite coarsen_trim_take.
  apply reshape_increasing.
  - lia.
  - rewrite length_take.
    pose proof (Nat.Div0.mul_div_le (length ds) (Z.to_nat k)). lia.
  - apply increasing_take, H.
Qed.

Lemma coarsen_mean_increasing (k : Z) (ds out : nav_dataset) :
  1 <= k -> increasing time ds -> coarsen_mean k ds = Ok out -> increasing time out.
Proof.
  intros Hk H E. apply coarsen_mean_inv in E as [-> _].
  apply coarsen_windows_increasing; assumption.
Qed.

Lemma length_coarsen_mean (k : Z) (ds out : nav_dataset) :
  coarsen_mean k ds = Ok out -> length out = (length ds / Z.to_nat k)%nat.
Proof.
  intros E. apply coarsen_mean_inv in E as [-> _].
  rewrite length_map. apply length_coarsen_trim.
Qed.

(** Filling groups of [k] one record at a time gives the windows of the
    trimmed reshape. *)
Lemma spec_blocks_reshape (k : nat) (cur l : list sample) :
  (length cur < k)%nat ->
  spec_blocks k cur l = coarsen_trim k (cur ++ l).
Proof.
  revert cur. induction l as [| x r IH]; intros cur Hcur.
  - cbn. rewrite app_nil_r. unfold coarsen_trim.
    rewrite Nat.div_small by exact Hcur. reflexivity.
  - cbn [spec_blocks].
    destruct (Nat.eqb_spec (length (cur ++ [x])) k) as [E | E].
    + assert (0 < k)%nat as Hk by (rewrite length_app in E; cbn in E; lia).
      rewrite (IH []) by exact Hk. rewrite app_nil_l.
      replace (cur ++ x :: r) with ((cur ++ [x]) ++ r) by (rewrite <- app_assoc; reflexivity).
      set (c := cur ++ [x]) in *.
      unfold coarsen_trim, isel. rewrite !Nat.sub_0_r, !drop_0.
      rewrite length_app, E.
      replace ((k + length r) / k)%nat with (S (length r / k)).
      2:{ replace (k + length r)%nat with (1 * k + length r)%nat by lia.
          rewrite Nat.div_add_l by lia. reflexivity. }
      cbn [reshape]. symmetry. f_equal.
      * rewrite take_take.
        replace (k `min` (k * S (length r / k)))%nat with (length c) by lia.
        apply take_app_length.
      * f_equal. rewrite skipn_firstn_comm.
        replace (k * S (length r / k) - k)%nat with (k * (length r / k))%nat by lia.
        rewrite (drop_app_length' c r k) by (symmetry; exact E). reflexivity.
    + rewrite length_app in E. cbn in E.
      rewrite IH by (rewrite length_app; cbn; lia).
      rewrite <- app_assoc. reflexivity.
Qed.

Lemma spec_average_mean_block (b : list sample) : spec_average b = mean_block b.
Proof. reflexivity. Qed.

Lemma spec_block_average_windows (k : Z) (ds : nav_dataset) :
  1 <= k ->
  spec_block_average (Z.to_nat k) ds = map mean_block (coarsen_trim (Z.to_nat k) ds).
Proof.
  intros Hk. unfold spec_block_average.
  rewrite spec_blocks_reshape by (cbn; lia).
  apply List.map_ext, spec_average_mean_block.
Qed.

(** ** Loading *)

Lemma where_le_100_masks (v : fval) : masked_above_100 v (where_le_100 v).
Proof.
  destruct v as [q |]; cbn; [| reflexivity].
  destruct (Qle_bool q 100) eqn:E.
  - split; [reflexivity |]. intros H. apply Qle_bool_iff in E. contradiction.
  - split; [| reflexivity]. intros H. apply Qle_bool_iff in H. congruence.
Qed.

Lemma where_le_100_bound (v : fval) (q : Q) :
  where_le_100 v = Some q -> v = Some q /\ (q <= 100)%Q.
Proof.
  destruct v as [q' |]; cbn; [| discriminate].
  destruct (Qle_bool q' 100) eqn:E; [| discriminate].
  intros [= <-]. split; [reflexivity | apply Qle_bool_iff, E].
Qed.

Lemma sic_cells_where (d : sic_dataset) :
  sic_cells (where_sic d) = map where_le_100 (sic_cells d).
Proof.
  destruct d as [l lat lon | s lat lon]; cbn; [| reflexivity].
  induction l as [| s r IH]; cbn; [reflexivity |].
  rewrite map_app, IH. reflexivity.
Qed.

Lemma sic_cells_squeeze (f : sic_file) :
  sic_cells (squeeze f) = concat (map sic (f_slices f)).
Proof.
  unfold squeeze. destruct (f_slices f) as [| s [| s' r]]; cbn; try reflexivity.
  rewrite app_nil_r. reflexivity.
Qed.

(** What a successful load has read. *)
Lemma load_data_inv (fs : filesystem) (ds : nav_dataset) (d : sic_dataset) :
  load_data fs = Ok (ds, d) ->
  exists p_nav p_sic records f,
    DATASET_PATH fs = Ok p_nav /\ SIC_PATH fs = Ok p_sic /\
    fs !! p_nav = Some (NavFile records) /\ fs !! p_sic = Some (SicFile f) /\
    ds = map assign_hour_of_day records /\ d = where_sic (squeeze f).
Proof.
  unfold load_data, open_dataset.
  destruct (DATASET_PATH fs) as [p_nav |]; [| discriminate].
  destruct (SIC_PATH fs) as [p_sic |]; [| discriminate]. cbn.
  destruct (fs !! p_nav) as [[records | ?] |] eqn:Enav; cbn; try discriminate.
  destruct (fs !! p_sic) as [[? | f] |] eqn:Esic; cbn; try discriminate.
  intros [= <- <-]. exists p_nav, p_sic, records, f. repeat split; assumption.
Qed.

(** C1, as stated, fails: the load of a file holding the value [-5]
    keeps it, and [-5] is not in the range [0..100]. *)
Lemma sic_valid_range_counterexample :
  ~ (forall fs ds d, load_data fs = Ok (ds, d) -> sic_in_valid_range d).
Proof.
  intros H.
  assert (load_data Examples.disk = Ok (Examples.nav, Examples.ice)) as Hload
    by (vm_compute; reflexivity).
  specialize (H _ _ _ Hload (-5)%Q).
  destruct H as [H _].
  - vm_compute. right. right. left. reflexivity.
  - vm_compute in H. apply H. reflexivity.
Qed.

(** C1, amended: at load time the SIC field is masked with the condition
    [sic <= 100] only.  Every value retained in the loaded dataset is at
    most 100, and each cell of the file is kept when it is a finite value
    up to 100 and masked (NaN) otherwise; no lower bound is applied. *)
Theorem load_data_sic_upper_bound (fs : filesystem) (ds : nav_dataset) (d : sic_dataset) :
  load_data fs = Ok (ds, d) ->
  (forall q, In (Some q) (sic_cells d) -> (q <= 100)%Q) /\
  exists p f,
    SIC_PATH fs = Ok p /\ fs !! p = Some (SicFile f) /\
    Forall2 masked_above_100 (concat (map sic (f_slices f))) (sic_cells d).
Proof.
  intros Hload.
  destruct (load_data_inv _ _ _ Hload) as (p_nav & p_sic & records & f & _ & Hp & _ & Hf & _ & ->).
  rewrite sic_cells_where, sic_cells_squeeze. split.
  - intros q Hq. apply List.in_map_iff in Hq as (v & Hv & _).
    apply where_le_100_bound in Hv. apply Hv.
  - exists p_sic, f. split; [exact Hp |]. split; [exact Hf |].
    induction (concat (map sic (f_slices f))) as [| v r IH]; cbn; constructor.
    + apply where_le_100_masks.
    + exact IH.
Qed.

Lemma load_data_sic_upper_bound_witness :
  load_data Examples.disk = Ok (Examples.nav, Examples.ice) /\
  (forall q, In (Some q) (sic_cells Examples.ice) -> (q <= 100)%Q).
Proof.
  assert (load_data Examples.disk = Ok (Examples.nav, Examples.ice)) as Hload
    by (vm_compute; reflexivity).
  split; [exact Hload |].
  exact (proj1 (load_data_sic_upper_bound Examples.disk Examples.nav Examples.ice Hload)).
Defined.

(** ** The list of days *)

Lemma In_insert_unique (d x : Z) (l : list Z) :
  In x (insert_unique d l) <-> x = d \/ In x l.
Proof.
  induction l as [| y r IH]; cbn.
  - intuition.
  - destruct (Z.ltb_spec d y); [cbn; intuition |].
    destruct (Z.eqb_spec d y) as [-> | Hne]; cbn; [intuition |].
    rewrite IH. intuition.
Qed.

Lemma In_np_unique (x : Z) (l : list Z) : In x (np_unique l) <-> In x l.
Proof.
  induction l as [| y r IH]; cbn; [reflexivity |].
  rewrite In_insert_unique, IH. intuition.
Qed.

Lemma In_DAYS (DS : nav_dataset) (day : Z) :
  In day (DAYS DS) <-> exists s, In s DS /\ strftime_day (time s) = day.
Proof.
  unfold DAYS. rewrite In_np_unique, List.in_map_iff.
  split; intros (s & H1 & H2); exists s; tauto.
Qed.

Lemma DAYS_nil (DS : nav_dataset) : DAYS DS = [] <-> DS = [].
Proof.
  split; [| intros ->; reflexivity].
  destruct DS as [| s r]; [reflexivity |]. intros H. exfalso.
  assert (In (strftime_day (time s)) (DAYS (s :: r))) as Hin
    by (apply In_DAYS; exists s; split; [left |]; reflexivity).
  rewrite H in Hin. destruct Hin.
Qed.

(** ** Day selection *)

(** On a dataset indexed by increasing time the day selection holds
    exactly the records of that day. *)
Lemma sel_day_records (ds : nav_dataset) (day : Z) :
  increasing time ds -> _sel_day ds day = spec_select_day ds day.
Proof.
  intros H. unfold _sel_day, spec_select_day.
  rewrite sel_time_filter by exact H.
  apply List.filter_ext. intros s. symmetry. apply in_day_bounds.
Qed.

Lemma In_spec_select_day (ds : nav_dataset) (day : Z) (s : sample) :
  In s (spec_select_day ds day) <-> In s ds /\ strftime_day (time s) = day.
Proof.
  unfold spec_select_day, in_day. rewrite List.filter_In, Z.eqb_eq. reflexivity.
Qed.

(** C2: for every day found in the time coordinate of a navigation dataset
    indexed by increasing time, [_make_timerange] succeeds and sets the
    slider to a non-empty range whose start is the least timestamp of that
    day's records and whose end is the greatest. *)
Theorem make_timerange_day_bounds (DS : nav_dataset) (day : Z) (w : DatetimeRangeSlider) :
  is_monotonic_increasing time DS = true ->
  In day (DAYS DS) ->
  exists t0 t1,
    _make_timerange DS day w = Ok (mk_slider (Some t0) (Some t1) (Some (Some t0, Some t1))) /\
    t0 <= t1 /\
    is_day_minimum DS day t0 /\
    is_day_maximum DS day t1.
Proof.
  intros Hmono Hday.
  apply is_monotonic_increasing_sound in Hmono.
  apply In_DAYS in Hday as (s & Hs & Hsd).
  unfold _make_timerange. rewrite sel_day_records by exact Hmono.
  assert (In s (spec_select_day DS day)) as Hin by (apply In_spec_select_day; tauto).
  destruct (spec_select_day DS day) as [| a r] eqn:E; [destruct Hin |].
  rewrite <- E in *. clear Hin.
  destruct (time_min time (spec_select_day DS day)) as [t0 |] eqn:E0;
    [| rewrite E in E0; discriminate].
  destruct (time_max time (spec_select_day DS day)) as [t1 |] eqn:E1;
    [| rewrite E in E1; discriminate].
  apply time_min_spec in E0 as [(s0 & Hs0 & <-) Hmin].
  apply time_max_spec in E1 as [(s1 & Hs1 & <-) Hmax].
  exists (time s0), (time s1). split; [reflexivity |].
  split; [apply Hmin, Hs1 |].
  split; split.
  - exists s0. apply In_spec_select_day in Hs0. tauto.
  - intros x Hx Hxd. apply Hmin, In_spec_select_day. tauto.
  - exists s1. apply In_spec_select_day in Hs1. tauto.
  - intros x Hx Hxd. apply Hmax, In_spec_select_day. tauto.
Qed.

Lemma make_timerange_day_bounds_witness :
  exists t0 t1,
    _make_timerange Examples.nav 19083 (mk_slider None None None)
      = Ok (mk_slider (Some t0) (Some t1) (Some (Some t0, Some t1))) /\
    t0 <= t1 /\
    is_day_minimum Examples.nav 19083 t0 /\
    is_day_maximum Examples.nav 19083 t1.
Proof.
  apply (make_timerange_day_bounds Examples.nav 19083 (mk_slider None None None)).
  - vm_compute. reflexivity.
  - vm_compute. left. reflexivity.
Defined.

(** ** Coarsening a day slice *)

Lemma coarsen_condition (k : Z) : truthy k && (k >? 1) = (1 <? k).
Proof.
  unfold truthy.
  destruct (Z.gtb_spec k 1), (Z.ltb_spec 1 k), (Z.eqb_spec k 0); cbn; lia || reflexivity.
Qed.

Lemma prep_day_identity (ds : nav_dataset) (day k : Z) :
  k <= 1 -> _prep_day ds day k = Ok (_sel_day ds day).
Proof.
  intros H. unfold _prep_day. rewrite coarsen_condition.
  destruct (Z.ltb_spec 1 k); [lia | reflexivity].
Qed.

Lemma prep_day_coarsen (ds : nav_dataset) (day k : Z) :
  1 < k -> _prep_day ds day k = coarsen_mean k (_sel_day ds day).
Proof.
  intros H. unfold _prep_day. rewrite coarsen_condition.
  destruct (Z.ltb_spec 1 k); [reflexivity | lia].
Qed.

Lemma windows_none (n : nat) (k : Z) :
  1 <= k -> (n / Z.to_nat k = 0)%nat <-> Z.of_nat n < k.
Proof. intros Hk. rewrite Nat.div_small_iff by lia. lia. Qed.

(** When the day slice has a complete window the coarsening returns, and
    when it has none it raises. *)
Lemma prep_day_returns (ds : nav_dataset) (day k : Z) :
  1 < k -> k <= Z.of_nat (length (_sel_day ds day)) ->
  _prep_day ds day k
  = Ok (map mean_block (coarsen_trim (Z.to_nat k) (_sel_day ds day))).
Proof.
  intros Hk Hn. rewrite prep_day_coarsen by exact Hk.
  apply coarsen_mean_Ok. rewrite windows_none by lia. lia.
Qed.

Lemma prep_day_raises (ds : nav_dataset) (day k : Z) :
  1 < k -> Z.of_nat (length (_sel_day ds day)) < k ->
  _prep_day ds day k = Err ValueError.
Proof.
  intros Hk Hn. rewrite prep_day_coarsen by exact Hk.
  apply coarsen_mean_Err. apply windows_none; lia.
Qed.

(** C3, as stated, fails: the first day of the example has five records,
    and coarsening it with factor 6 raises [ValueError] instead of
    returning a slice of [floor (5 / 6) = 0] samples. *)
Lemma prep_day_short_day_counterexample :
  ~ (forall ds day k,
        is_monotonic_increasing time ds = true ->
        1 < k ->
        exists out,
          _prep_day ds day k = Ok out /\
          Z.of_nat (length out) = Z.of_nat (length (_sel_day ds day)) / k).
Proof.
  intros H.
  destruct (H Examples.nav 19083 6 eq_refl eq_refl) as (out & E & _).
  discriminate E.
Qed.

(** C3, amended: on a dataset indexed by increasing time, coarsening with
    factor 1 returns the day slice unchanged; with a factor [k] that is 1
    or at most the number [n] of samples of the day slice, the result has
    [floor (n / k)] samples; with a factor above 1 and above [n] the
    slice has no complete window and the coarsening raises [ValueError]. *)
Theorem prep_day_coarsen_count (ds : nav_dataset) (day : Z) (k : Z) :
  is_monotonic_increasing time ds = true ->
  1 <= k ->
  _prep_day ds day 1 = Ok (_sel_day ds day) /\
  (k = 1 \/ k <= Z.of_nat (length (_sel_day ds day)) ->
   exists out,
     _prep_day ds day k = Ok out /\
     Z.of_nat (length out) = Z.of_nat (length (_sel_day ds day)) / k) /\
  (1 < k -> Z.of_nat (length (_sel_day ds day)) < k ->
   _prep_day ds day k = Err ValueError).
Proof.
  intros _ Hk. split; [reflexivity |]. split; [| apply prep_day_raises].
  intros Hcase. destruct (Z.eq_dec k 1) as [-> | Hne].
  - eexists. split; [reflexivity |]. rewrite Z.div_1_r. reflexivity.
  - destruct Hcase as [-> | Hn]; [contradiction |].
    eexists. split; [apply prep_day_returns; lia |].
    rewrite length_map, length_coarsen_trim, Nat2Z.inj_div, Z2Nat.id by lia.
    reflexivity.
Qed.

Lemma prep_day_coarsen_count_witness :
  _prep_day Examples.nav 19083 1 = Ok (_sel_day Examples.nav 19083) /\
  (exists out,
      _prep_day Examples.nav 19083 2 = Ok out /\ Z.of_nat (length out) = 5 / 2) /\
  _prep_day Examples.nav 19083 6 = Err ValueError.
Proof.
  assert (is_monotonic_increasing time Examples.nav = true) as Hm
    by (vm_compute; reflexivity).
  assert (1 <= 2) as H2 by lia.
  assert (1 <= 6) as H6 by lia.
  pose proof (prep_day_coarsen_count Examples.nav 19083 2 Hm H2) as P2.
  pose proof (prep_day_coarsen_count Examples.nav 19083 6 Hm H6) as P6.
  split; [exact (proj1 P2) |]. split.
  - apply (proj1 (proj2 P2)). right. vm_compute. discriminate.
  - apply (proj2 (proj2 P6)); reflexivity.
Defined.

(** ** Time-range filtering *)

Lemma filter_timerange_filter (ds_day : nav_dataset) (t_range : time_range) :
  increasing time ds_day ->
  _filter_timerange ds_day t_range = spec_filter_window ds_day t_range.
Proof.
  intros H. unfold _filter_timerange, spec_filter_window.
  destruct t_range as [[[t0 |] [t1 |]] |]; try reflexivity.
  apply sel_time_filter, H.
Qed.

Lemma filter_timerange_increasing (ds_day : nav_dataset) (t_range : time_range) :
  increasing time ds_day -> increasing time (_filter_timerange ds_day t_range).
Proof.
  intros H. unfold _filter_timerange.
  destruct t_range as [[[t0 |] [t1 |]] |]; try exact H.
  apply sel_time_increasing, H.
Qed.

Lemma filter_timerange_twice (ds_day : nav_dataset) (t_range : time_range) :
  increasing time ds_day ->
  _filter_timerange (_filter_timerange ds_day t_range) t_range
  = _filter_timerange ds_day t_range.
Proof.
  intros H. unfold _filter_timerange.
  destruct t_range as [[[t0 |] [t1 |]] |]; try reflexivity.
  apply sel_time_idempotent, H.
Qed.

(** C4: for every day slice (indexed by increasing time) and every time
    range, filtering the slice and filtering the result again to the same
    range gives the same record count as filtering once. *)
Theorem filter_timerange_idempotent (ds_day : nav_dataset) (t_range : time_range) :
  is_monotonic_increasing time ds_day = true ->
  length (_filter_timerange (_filter_timerange ds_day t_range) t_range)
  = length (_filter_timerange ds_day t_range).
Proof.
  intros H. apply is_monotonic_increasing_sound in H.
  rewrite filter_timerange_twice by exact H. reflexivity.
Qed.

Lemma filter_timerange_idempotent_witness :
  length (_filter_timerange
            (_filter_timerange (_sel_day Examples.nav 19083) Examples.noon)
            Examples.noon)
  = length (_filter_timerange (_sel_day Examples.nav 19083) Examples.noon).
Proof.
  apply (filter_timerange_idempotent (_sel_day Examples.nav 19083) Examples.noon).
  vm_compute. reflexivity.
Defined.

(** ** The view slicer *)

Lemma sel_day_increasing (ds : nav_dataset) (day : Z) :
  increasing time ds -> increasing time (_sel_day ds day).
Proof. apply sel_time_increasing. Qed.

Lemma prep_day_increasing (ds : nav_dataset) (day : Z) (k : Z) (out : nav_dataset) :
  increasing time ds -> _prep_day ds day k = Ok out -> increasing time out.
Proof.
  intros H. unfold _prep_day. rewrite coarsen_condition.
  destruct (Z.ltb_spec 1 k).
  - apply coarsen_mean_increasing; [lia | apply sel_day_increasing, H].
  - intros [= <-]. apply sel_day_increasing, H.
Qed.

Lemma ds_for_view_inv (ds : nav_dataset) (day k : Z) (t_range : time_range)
    (out : nav_dataset) :
  _ds_for_view ds day k t_range = Ok out ->
  exists prepared,
    _prep_day ds day k = Ok prepared /\ out = _filter_timerange prepared t_range.
Proof.
  unfold _ds_for_view. destruct (_prep_day ds day k) as [p | e]; cbn; [| discriminate].
  intros [= <-]. exists p. split; reflexivity.
Qed.

(** C8, as stated, fails: on the five records of the first day of the
    example and the factor 6, the order "select, block-average with the
    remainder trimmed, filter" gives an empty result, but the slicer
    raises [ValueError] and returns nothing. *)
Lemma ds_for_view_short_day_counterexample :
  ~ (forall ds day k t_range,
        is_monotonic_increasing time ds = true ->
        _ds_for_view ds day k t_range = Ok (spec_view ds day k t_range)).
Proof.
  intros H. specialize (H Examples.nav 19083 6 None eq_refl). discriminate H.
Qed.

(** C8, amended: on a dataset indexed by increasing time, when the
    coarsening factor is at most 1 or at most the number of records of
    the day, the view slicer returns what the specification describes:
    the records of the day, then (only for a factor above 1) the means of
    the consecutive groups of [k] records with the incomplete last group
    dropped, then the records of that result inside the time window.
    When the factor is above 1 and above the number of records of the
    day, the block-averaging step raises [ValueError] and the slicer
    returns nothing. *)
Theorem ds_for_view_order (ds : nav_dataset) (day : Z) (k : Z) (t_range : time_range) :
  is_monotonic_increasing time ds = true ->
  (k <= 1 \/ k <= Z.of_nat (length (spec_select_day ds day)) ->
   _ds_for_view ds day k t_range = Ok (spec_view ds day k t_range)) /\
  (1 < k -> Z.of_nat (length (spec_select_day ds day)) < k ->
   _ds_for_view ds day k t_range = Err ValueError).
Proof.
  intros H. apply is_monotonic_increasing_sound in H.
  rewrite <- (sel_day_records ds day H). split.
  - intros Hcase. unfold _ds_for_view, spec_view.
    rewrite <- (sel_day_records ds day H).
    destruct (Z.ltb_spec 1 k) as [Hk | Hk].
    + destruct Hcase as [Hle | Hn]; [lia |].
      rewrite prep_day_returns by assumption. cbn [mbind result_bind].
      rewrite spec_block_average_windows by lia.
      rewrite filter_timerange_filter; [reflexivity |].
      apply coarsen_windows_increasing; [lia | apply sel_day_increasing, H].
    + rewrite prep_day_identity by exact Hk. cbn [mbind result_bind].
      rewrite filter_timerange_filter by (apply sel_day_increasing, H). reflexivity.
  - intros Hk Hn. unfold _ds_for_view.
    rewrite prep_day_raises by assumption. reflexivity.
Qed.

Lemma ds_for_view_order_witness :
  _ds_for_view Examples.nav 19083 2 Examples.noon
  = Ok (spec_view Examples.nav 19083 2 Examples.noon) /\
  _ds_for_view Examples.nav 19083 6 Examples.noon = Err ValueError.
Proof.
  assert (is_monotonic_increasing time Examples.nav = true) as H
    by (vm_compute; reflexivity).
  split.
  - apply (proj1 (ds_for_view_order Examples.nav 19083 2 Examples.noon H)).
    right. vm_compute. discriminate.
  - apply (proj2 (ds_for_view_order Examples.nav 19083 6 Examples.noon H)); reflexivity.
Defined.

(** ** The map and the SIC toggle *)

Lemma track_of_build_map (ds_day : nav_dataset) (m m' : option sic_day_mean)
    (size : Z) (alpha : Q) (show_sic show_sic' : bool) :
  track_of (build_map ds_day m size alpha show_sic)
  = track_of (build_map ds_day m' size alpha show_sic').
Proof.
  unfold build_map.
  destruct show_sic, m, show_sic', m'; reflexivity.
Qed.

(** C5: with the toggle off the map has no raster layer, and its point
    track is the track built with the toggle on; for the whole view, the
    output with the toggle off is the output with the toggle on with the
    raster layer removed (and both raise the same exception if any). *)
Theorem sic_toggle_off_keeps_track
    (DS : nav_dataset) (DS_SIC : sic_dataset) (ds_day : nav_dataset)
    (m m' : option sic_day_mean)
    (day : Z) (k : Z) (t_range : time_range) (size : Z) (alpha : Q) :
  raster_of (build_map ds_day m size alpha false) = None /\
  track_of (build_map ds_day m size alpha false)
  = track_of (build_map ds_day m' size alpha true) /\
  view DS DS_SIC day k t_range size alpha false
  = (d ← view DS DS_SIC day k t_range size alpha true; Ok (without_raster d)).
Proof.
  split; [reflexivity |]. split; [apply track_of_build_map |].
  unfold view.
  destruct (_ds_for_view DS day k t_range) as [v | e]; [| reflexivity].
  destruct (sic_sel_day DS_SIC day) as [l | e]; [| reflexivity].
  unfold mbind, result_bind, without_raster.
  destruct (0 <? length l)%nat; reflexivity.
Qed.

(** ** Path resolution *)

Lemma first_existing_Some (fs : filesystem) (candidates : list string) (p : string) :
  first_existing fs candidates = Some p -> is_first_existing fs candidates p.
Proof.
  induction candidates as [| c rest IH]; cbn; [discriminate |].
  destruct (path_exists fs c) eqn:E.
  - intros [= <-]. exists [], rest. repeat split; [exact E | constructor].
  - intros H. destruct (IH H) as (before & after & -> & Hp & Hbefore).
    exists (c :: before), after. repeat split; [exact Hp |].
    constructor; assumption.
Qed.

Lemma first_existing_None (fs : filesystem) (candidates : list string) :
  first_existing fs candidates = None <->
  Forall (fun q => path_exists fs q = false) candidates.
Proof.
  induction candidates as [| c rest IH]; cbn.
  - split; [constructor | reflexivity].
  - destruct (path_exists fs c) eqn:E.
    + split; [discriminate |]. intros H. inversion H; congruence.
    + rewrite IH. split; [constructor; assumption |]. intros H. inversion H; assumption.
Qed.

Lemma open_dataset_missing (fs : filesystem) (p : string) :
  path_exists fs p = false -> open_dataset fs p = Err (FileNotFoundError p).
Proof.
  unfold path_exists, open_dataset. destruct (fs !! p); [discriminate | reflexivity].
Qed.

Lemma open_dataset_present (fs : filesystem) (p : string) (f : nc_file) :
  fs !! p = Some f -> open_dataset fs p = Ok f.
Proof. unfold open_dataset. intros ->. reflexivity. Qed.

Lemma resolve_path_missing (fs : filesystem) (p0 : string) (rest : list string) :
  Forall (fun q => path_exists fs q = false) (p0 :: rest) ->
  _resolve_path fs (p0 :: rest) = Ok p0.
Proof.
  intros H. unfold _resolve_path.
  apply first_existing_None in H. rewrite H. reflexivity.
Qed.

(** C7: on a non-empty candidate list, path resolution returns the first
    candidate that exists, in the order of the list; if none exists it
    returns the first candidate, and opening that path raises
    [FileNotFoundError].  For the two fixed candidate lists: if no
    navigation candidate exists, or the navigation file is read and no SIC
    candidate exists, [load_data] raises [FileNotFoundError] on the first
    candidate and returns no data. *)
Theorem resolve_path_first_existing (fs : filesystem) (p0 : string) (rest : list string) :
  (exists p,
      _resolve_path fs (p0 :: rest) = Ok p /\
      (is_first_existing fs (p0 :: rest) p \/
       (Forall (fun q => path_exists fs q = false) (p0 :: rest) /\
        p = p0 /\ open_dataset fs p = Err (FileNotFoundError p)))) /\
  (Forall (fun q => path_exists fs q = false) CANDIDATE_DATASET_PATHS ->
   load_data fs = Err (FileNotFoundError (nth 0 CANDIDATE_DATASET_PATHS ""%string))) /\
  (forall p records,
      DATASET_PATH fs = Ok p -> fs !! p = Some (NavFile records) ->
      Forall (fun q => path_exists fs q = false) CANDIDATE_SIC_PATHS ->
      load_data fs = Err (FileNotFoundError (nth 0 CANDIDATE_SIC_PATHS ""%string))).
Proof.
  split; [| split].
  - unfold _resolve_path.
    destruct (first_existing fs (p0 :: rest)) as [p |] eqn:E.
    + exists p. split; [reflexivity |]. left. apply first_existing_Some, E.
    + exists p0. split; [reflexivity |]. right.
      apply first_existing_None in E. split; [exact E |]. split; [reflexivity |].
      apply open_dataset_missing. inversion E; assumption.
  - intros H. unfold load_data, DATASET_PATH, SIC_PATH.
    unfold CANDIDATE_DATASET_PATHS in *. rewrite resolve_path_missing by exact H.
    unfold CANDIDATE_SIC_PATHS, _resolve_path.
    inversion H as [| ? ? H0 _]; subst.
    destruct (first_existing fs _); cbn [mbind result_bind nth];
      rewrite (open_dataset_missing _ _ H0); reflexivity.
  - intros p records Hp Hfile H. unfold load_data. rewrite Hp.
    unfold SIC_PATH, CANDIDATE_SIC_PATHS in *. rewrite resolve_path_missing by exact H.
    cbn [mbind result_bind nth].
    rewrite (open_dataset_present _ _ _ Hfile). cbn [mbind result_bind as_nav].
    inversion H as [| ? ? H0 _]; subst.
    rewrite (open_dataset_missing _ _ H0). reflexivity.
Qed.

Lemma resolve_path_first_existing_witness :
  load_data Examples.disk_without_nav
  = Err (FileNotFoundError (nth 0 CANDIDATE_DATASET_PATHS ""%string)).
Proof.
  apply (proj1 (proj2 (resolve_path_first_existing Examples.disk_without_nav ""%string []))).
  repeat constructor.
Defined.

(** ** Startup *)

Lemma bind_Err {A B} (r : result A) (k : A -> result B) (e : exn) :
  r ≫= k = Err e -> r = Err e \/ exists a, r = Ok a /\ k a = Err e.
Proof.
  destruct r as [a | e']; cbn.
  - intros H. right. exists a. split; [reflexivity | exact H].
  - intros [= ->]. left. reflexivity.
Qed.

Lemma resolve_path_not_runtime (fs : filesystem) (candidates : list string) (msg : string) :
  _resolve_path fs candidates <> Err (RuntimeError msg).
Proof.
  unfold _resolve_path.
  destruct (first_existing fs candidates); [discriminate |].
  destruct candidates; discriminate.
Qed.

Lemma open_dataset_not_runtime (fs : filesystem) (p : string) (msg : string) :
  open_dataset fs p <> Err (RuntimeError msg).
Proof. unfold open_dataset. destruct (fs !! p); discriminate. Qed.

Lemma load_data_not_runtime (fs : filesystem) (msg : string) :
  load_data fs <> Err (RuntimeError msg).
Proof.
  intros H. unfold load_data in H.
  apply bind_Err in H as [H | (p & _ & H)];
    [exact (resolve_path_not_runtime _ _ _ H) |].
  apply bind_Err in H as [H | (q & _ & H)];
    [exact (resolve_path_not_runtime _ _ _ H) |].
  apply bind_Err in H as [H | (ds & _ & H)].
  - apply bind_Err in H as [H | (f & _ & H)];
      [exact (open_dataset_not_runtime _ _ _ H) | destruct f; discriminate].
  - apply bind_Err in H as [H | (ds_sic & _ & H)]; [| discriminate].
    apply bind_Err in H as [H | (f & _ & H)];
      [exact (open_dataset_not_runtime _ _ _ H) | destruct f; discriminate].
Qed.

Lemma make_timerange_not_runtime (DS : nav_dataset) (day : Z)
    (w : DatetimeRangeSlider) (msg : string) :
  _make_timerange DS day w <> Err (RuntimeError msg).
Proof.
  unfold _make_timerange, time_min, time_max.
  destruct (_sel_day DS day); cbn; discriminate.
Qed.

Lemma ds_for_view_not_runtime (ds : nav_dataset) (day k : Z) (t_range : time_range)
    (msg : string) :
  _ds_for_view ds day k t_range <> Err (RuntimeError msg).
Proof.
  unfold _ds_for_view, _prep_day, coarsen_mean.
  destruct (truthy k && (k >? 1)); [| discriminate].
  destruct (coarsen_trim _ _); discriminate.
Qed.

Lemma view_not_runtime (ds : nav_dataset) (d : sic_dataset) (day k : Z)
    (t_range : time_range) (size : Z) (alpha : Q) (show_sic : bool) (msg : string) :
  view ds d day k t_range size alpha show_sic <> Err (RuntimeError msg).
Proof.
  intros H. unfold view in H.
  apply bind_Err in H as [H | (v & _ & H)];
    [exact (ds_for_view_not_runtime _ _ _ _ _ H) |].
  apply bind_Err in H as [H | (l & _ & H)]; [| discriminate].
  destruct d; discriminate.
Qed.

(** C6: startup raises the fatal [RuntimeError] exactly when the data
    load succeeded and the list of days derived from the navigation time
    coordinate is empty, which is when that coordinate has no entry; the
    error carries the message of the guard, and no other step of startup
    raises a [RuntimeError]. *)
Theorem startup_no_days_guard (fs : filesystem) (msg : string) :
  (startup fs = Err (RuntimeError msg) <->
   exists ds ds_sic, load_data fs = Ok (ds, ds_sic) /\ DAYS ds = [] /\ msg = NO_DAYS) /\
  (forall ds ds_sic, load_data fs = Ok (ds, ds_sic) -> (DAYS ds = [] <-> ds = [])).
Proof.
  split; [| intros; apply DAYS_nil].
  unfold startup. split.
  - destruct (load_data fs) as [[ds ds_sic] | e] eqn:E; cbn [mbind result_bind].
    + destruct (DAYS ds) as [| d r] eqn:Ed; cbn [length Nat.eqb].
      * intros [= <-]. exists ds, ds_sic. repeat split; assumption.
      * cbn [DS w_day w_timerange nth].
        destruct (_make_timerange ds d _) as [w | e] eqn:Ew; cbn [mbind result_bind].
        -- destruct (view _ _ _ _ _ _ _ _) as [out | e] eqn:Ev; cbn [mbind result_bind];
             [discriminate |].
           intros [= ->]. exfalso. exact (view_not_runtime _ _ _ _ _ _ _ _ _ Ev).
        -- intros [= ->]. exfalso. exact (make_timerange_not_runtime _ _ _ _ Ew).
    + intros [= ->]. exfalso. exact (load_data_not_runtime _ _ E).
  - intros (ds & ds_sic & -> & Ed & ->). cbn [mbind result_bind].
    rewrite Ed. reflexivity.
Qed.

Lemma startup_no_days_guard_witness :
  startup Examples.disk_empty_nav = Err (RuntimeError NO_DAYS).
Proof.
  apply (proj1 (startup_no_days_guard Examples.disk_empty_nav NO_DAYS)).
  exists [], Examples.ice.
  split; [vm_compute; reflexivity | split; reflexivity].
Defined.

(** ** The SIC raster *)




(** What [view] returns when it returns, and when it does. *)
Lemma view_inv (ds : nav_dataset) (d : sic_dataset) (day k : Z) (t_range : time_range)
    (size : Z) (alpha : Q) (show_sic : bool) (out : dashboard) :
  view ds d day k t_range size alpha show_sic = Ok out ->
  exists ds_day l,
    _ds_for_view ds day k t_range = Ok ds_day /\
    sic_sel_day d day = Ok l /\
    out = {| mp := build_map ds_day
                     (if show_sic && (0 <? length l)%nat
                      then Some {| m_sic := mean_over_time l;
                                   m_lat := sic_lat d; m_lon := sic_lon d |}
                      else None)
                     (size + 1) alpha show_sic;
             ts := build_timeseries ds_day size alpha |}.
Proof.
  unfold view.
  destruct (_ds_for_view ds day k t_range) as [ds_day | e]; cbn [mbind result_bind];
    [| discriminate].
  destruct (sic_sel_day d day) as [l | e]; cbn [mbind result_bind]; [| discriminate].
  intros [= <-]. exists ds_day, l. repeat split.
Qed.


Lemma raster_of_build_map (ds_day : nav_dataset) (l : list sic_slice) (m : sic_day_mean)
    (size : Z) (alpha : Q) (show_sic : bool) :
  raster_of (build_map ds_day (if show_sic && (0 <? length l)%nat then Some m else None)
               size alpha show_sic)
  = if show_sic && (0 <? length l)%nat then Some m else None.
Proof. unfold build_map. destruct show_sic, (0 <? length l)%nat; reflexivity. Qed.

Lemma raster_of_view (ds : nav_dataset) (d : sic_dataset) (day k : Z) (t_range : time_range)
    (size : Z) (alpha : Q) (show_sic : bool) (out : dashboard) (l : list sic_slice) :
  view ds d day k t_range size alpha show_sic = Ok out ->
  sic_sel_day d day = Ok l ->
  raster_of (mp out)
  = if show_sic && (0 <? length l)%nat
    then Some {| m_sic := mean_over_time l; m_lat := sic_lat d; m_lon := sic_lon d |}
    else None.
Proof.
  intros Hv Hl. apply view_inv in Hv as (ds_day & l' & _ & Hl' & ->).
  assert (l' = l) as -> by congruence. cbn [mp]. apply raster_of_build_map.
Qed.




(** ** The source datasets in the store *)

Module StoreFacts.
Import Store.

Lemma step_Ok {A B} (m : M A) (k : A -> M B) (σ σ' : store) (a : A) :
  m σ = (Ok a, σ') -> (m ≫= k) σ = k a σ'.
Proof. intros H. unfold mbind, M_bind. rewrite H. reflexivity. Qed.

Lemma step_Err {A B} (m : M A) (k : A -> M B) (σ σ' : store) (e : exn) :
  m σ = (Err e, σ') -> (m ≫= k) σ = (Err e, σ').
Proof. intros H. unfold mbind, M_bind. rewrite H. reflexivity. Qed.

(** *** Running a computation *)

Lemma runs_ret {A} (a : A) (σ : store) : runs_to (mret a) σ (Ok a) σ.
Proof. split; reflexivity. Qed.

Lemma runs_lift {A} (r : result A) (σ : store) : runs_to (lift r) σ r σ.
Proof. split; reflexivity. Qed.

Lemma runs_bind_Ok {A B} (m : M A) (k : A -> M B) (σ σ1 σ2 : store) (a : A) (r : result B) :
  runs_to m σ (Ok a) σ1 -> runs_to (k a) σ1 r σ2 -> runs_to (m ≫= k) σ r σ2.
Proof.
  intros [E1 S1] [E2 S2]. split.
  - rewrite (step_Ok _ _ _ _ _ E1). exact E2.
  - etransitivity; eassumption.
Qed.

Lemma runs_bind_Err {A B} (m : M A) (k : A -> M B) (σ σ1 : store) (e : exn) :
  runs_to m σ (Err e) σ1 -> runs_to (m ≫= k) σ (Err e) σ1.
Proof.
  intros [E1 S1]. split; [| exact S1]. apply step_Err, E1.
Qed.

Lemma fresh_free (σ : store) : σ !! fresh (dom σ) = None.
Proof. apply not_elem_of_dom, is_fresh. Qed.

Lemma runs_new (o : obj) (σ : store) :
  exists l, runs_to (new o) σ (Ok l) (<[l := o]> σ) /\ σ !! l = None.
Proof.
  exists (fresh (dom σ)). pose proof (fresh_free σ) as F.
  split; [split |]; [reflexivity | apply insert_subseteq, F | exact F].
Qed.

Lemma runs_get (l : loc) (o : obj) (σ : store) :
  σ !! l = Some o -> runs_to (get l) σ (Ok o) σ.
Proof. intros H. split; [| reflexivity]. unfold get. rewrite H. reflexivity. Qed.

Lemma runs_get_nav (l : loc) (v : nav_dataset) (σ : store) :
  σ !! l = Some (ONav v) -> runs_to (get_nav l) σ (Ok v) σ.
Proof.
  intros H. eapply runs_bind_Ok; [apply runs_get, H | apply runs_ret].
Qed.

Lemma runs_get_sic (l : loc) (d : sic_dataset) (σ : store) :
  σ !! l = Some (OSic d) -> runs_to (get_sic l) σ (Ok d) σ.
Proof.
  intros H. eapply runs_bind_Ok; [apply runs_get, H | apply runs_ret].
Qed.

Lemma runs_get_sic_mean (l : loc) (m : sic_day_mean) (σ : store) :
  σ !! l = Some (OSicMean m) -> runs_to (get_sic_mean l) σ (Ok m) σ.
Proof.
  intros H. eapply runs_bind_Ok; [apply runs_get, H | apply runs_ret].
Qed.

Lemma runs_get_frame (l : loc) (df : nav_dataset) (σ : store) :
  σ !! l = Some (OFrame df) -> runs_to (get_frame l) σ (Ok df) σ.
Proof.
  intros H. eapply runs_bind_Ok; [apply runs_get, H | apply runs_ret].
Qed.

Lemma runs_get_plot (l : loc) (p : map_plot) (σ : store) :
  σ !! l = Some (OPlot p) -> runs_to (get_plot l) σ (Ok p) σ.
Proof.
  intros H. eapply runs_bind_Ok; [apply runs_get, H | apply runs_ret].
Qed.

Lemma runs_get_layout (l : loc) (p : list scatter) (σ : store) :
  σ !! l = Some (OLayout p) -> runs_to (get_layout l) σ (Ok p) σ.
Proof.
  intros H. eapply runs_bind_Ok; [apply runs_get, H | apply runs_ret].
Qed.

(** A new object, bound and then used. *)
Lemma runs_bind_new {B} (o : obj) (k : loc -> M B) (σ : store) :
  exists l, σ !! l = None /\
    forall r σ', runs_to (k l) (<[l := o]> σ) r σ' -> runs_to (new o ≫= k) σ r σ'.
Proof.
  destruct (runs_new o σ) as (l & R & F). exists l. split; [exact F |].
  intros r σ' Rk. eapply runs_bind_Ok; eassumption.
Qed.

(** *** The slicer and the plot builders on the store *)

Lemma sel_day_m_computes (l : loc) (v : nav_dataset) (day : Z) (σ : store) :
  σ !! l = Some (ONav v) ->
  exists l' σ', runs_to (_sel_day_m l day) σ (Ok l') σ' /\
                σ' !! l' = Some (ONav (_sel_day v day)).
Proof.
  intros H. destruct (runs_new (ONav (_sel_day v day)) σ) as (l' & R & F).
  exists l', (<[l' := ONav (_sel_day v day)]> σ). split.
  - eapply runs_bind_Ok; [apply runs_get_nav, H | exact R].
  - apply lookup_insert_eq.
Qed.

Lemma prep_day_m_computes (l : loc) (v : nav_dataset) (day k : Z) (σ : store) :
  σ !! l = Some (ONav v) ->
  computes (_prep_day_m l day k) σ (_prep_day v day k) ONav.
Proof.
  intros H. destruct (sel_day_m_computes l v day σ H) as (l1 & σ1 & R1 & H1).
  unfold computes, _prep_day, _prep_day_m.
  destruct (truthy k && (k >? 1)).
  - destruct (coarsen_mean k (_sel_day v day)) as [out | e] eqn:E.
    + destruct (runs_new (ONav out) σ1) as (l2 & R2 & F2).
      exists (<[l2 := ONav out]> σ1), l2. split; [| apply lookup_insert_eq].
      eapply runs_bind_Ok; [exact R1 |].
      eapply runs_bind_Ok; [apply runs_get_nav, H1 |]. cbn beta. rewrite E.
      eapply runs_bind_Ok; [apply runs_lift | exact R2].
    + exists σ1.
      eapply runs_bind_Ok; [exact R1 |].
      eapply runs_bind_Ok; [apply runs_get_nav, H1 |]. cbn beta. rewrite E.
      apply runs_bind_Err, runs_lift.
  - exists σ1, l1. split; [| exact H1].
    eapply runs_bind_Ok; [exact R1 | apply runs_ret].
Qed.

Lemma filter_timerange_m_computes (l : loc) (v : nav_dataset) (t_range : time_range)
    (σ : store) :
  σ !! l = Some (ONav v) ->
  exists l' σ', runs_to (_filter_timerange_m l t_range) σ (Ok l') σ' /\
                σ' !! l' = Some (ONav (_filter_timerange v t_range)).
Proof.
  intros H. unfold _filter_timerange_m, _filter_timerange.
  destruct t_range as [[[t0 |] [t1 |]] |];
    try (exists l, σ; split; [apply runs_ret | exact H]).
  destruct (runs_new (ONav (sel_time time v t0 t1)) σ) as (l' & R & F).
  exists l', (<[l' := ONav (sel_time time v t0 t1)]> σ). split.
  - eapply runs_bind_Ok; [apply runs_get_nav, H | exact R].
  - apply lookup_insert_eq.
Qed.

Lemma ds_for_view_m_computes (g : globals) (ds : nav_dataset) (day k : Z)
    (t_range : time_range) (σ : store) :
  σ !! g_DS g = Some (ONav ds) ->
  computes (_ds_for_view_m g day k t_range) σ (_ds_for_view ds day k t_range) ONav.
Proof.
  intros H. destruct (prep_day_m_computes (g_DS g) ds day k σ H) as (σ1 & P).
  unfold computes, _ds_for_view, _ds_for_view_m.
  destruct (_prep_day ds day k) as [prepared | e]; cbn [mbind result_bind].
  - destruct P as (l1 & R1 & H1).
    destruct (filter_timerange_m_computes l1 prepared t_range σ1 H1) as (l2 & σ2 & R2 & H2).
    exists σ2, l2. split; [| exact H2].
    eapply runs_bind_Ok; [exact R1 |].
    eapply runs_bind_Ok; [exact R2 | apply runs_ret].
  - exists σ1. apply runs_bind_Err, P.
Qed.

Lemma build_timeseries_m_computes (l : loc) (v : nav_dataset) (size : Z) (alpha : Q)
    (σ : store) :
  σ !! l = Some (ONav v) ->
  exists l' σ', runs_to (build_timeseries_m l size alpha) σ (Ok l') σ' /\
                σ' !! l' = Some (OLayout (build_timeseries v size alpha)).
Proof.
  intros H. destruct (runs_new (OLayout (build_timeseries v size alpha)) σ) as (l' & R & F).
  exists l', (<[l' := OLayout (build_timeseries v size alpha)]> σ). split.
  - eapply runs_bind_Ok; [apply runs_get_nav, H | exact R].
  - apply lookup_insert_eq.
Qed.

(** The composite of the store version is the plot of [build_map]. *)
Lemma compose_map_build_map (v : nav_dataset) (m : option sic_day_mean)
    (size : Z) (alpha : Q) (show_sic : bool) :
  compose_map show_sic m (hvplot_points (dropna v) size alpha)
  = build_map v m size alpha show_sic.
Proof. destruct show_sic, m; reflexivity. Qed.

Lemma build_map_m_computes (l : loc) (v : nav_dataset)
    (lm : option loc) (m : option sic_day_mean)
    (size : Z) (alpha : Q) (show_sic : bool) (σ : store) :
  σ !! l = Some (ONav v) ->
  match lm, m with
  | Some l0, Some m0 => σ !! l0 = Some (OSicMean m0)
  | None, None => True
  | _, _ => False
  end ->
  exists l' σ', runs_to (build_map_m l lm size alpha show_sic) σ (Ok l') σ' /\
                σ' !! l' = Some (OPlot (build_map v m size alpha show_sic)).
Proof.
  intros H Hm. unfold build_map_m.
  destruct (runs_new (OFrame v) σ) as (l1 & R1 & F1).
  set (σ1 := <[l1 := OFrame v]> σ) in *.
  assert (σ1 !! l1 = Some (OFrame v)) as H1 by apply lookup_insert_eq.
  destruct (runs_new (OFrame (dropna v)) σ1) as (l2 & R2 & F2).
  set (σ2 := <[l2 := OFrame (dropna v)]> σ1) in *.
  assert (σ2 !! l2 = Some (OFrame (dropna v))) as H2 by apply lookup_insert_eq.
  destruct (runs_new (OPlot (build_map v m size alpha show_sic)) σ2) as (l3 & R3 & F3).
  exists l3, (<[l3 := OPlot (build_map v m size alpha show_sic)]> σ2).
  split; [| apply lookup_insert_eq].
  eapply runs_bind_Ok; [apply runs_get_nav, H |].
  eapply runs_bind_Ok; [exact R1 |].
  eapply runs_bind_Ok; [apply runs_get_frame, H1 |].
  eapply runs_bind_Ok; [exact R2 |].
  eapply runs_bind_Ok; [apply runs_get_frame, H2 |].
  eapply (runs_bind_Ok _ _ _ σ2 _ m).
  - destruct lm as [l0 |], m as [m0 |]; try contradiction; [| apply runs_ret].
    eapply runs_bind_Ok; [| apply runs_ret].
    apply runs_get_sic_mean.
    destruct R1 as [_ S1], R2 as [_ S2].
    eapply lookup_weaken; [| exact S2]. eapply lookup_weaken; [| exact S1]. exact Hm.
  - rewrite compose_map_build_map. exact R3.
Qed.

Lemma view_m_computes (g : globals) (ds : nav_dataset) (d : sic_dataset)
    (day k : Z) (t_range : time_range) (size : Z) (alpha : Q) (show_sic : bool)
    (σ : store) :
  σ !! g_DS g = Some (ONav ds) ->
  σ !! g_DS_SIC g = Some (OSic d) ->
  computes (view_m g day k t_range size alpha show_sic) σ
           (view ds d day k t_range size alpha show_sic) OColumn.
Proof.
  intros Hds Hd.
  destruct (ds_for_view_m_computes g ds day k t_range σ Hds) as (σ1 & P).
  unfold computes, view, view_m.
  destruct (_ds_for_view ds day k t_range) as [ds_day | e]; cbn [mbind result_bind];
    [| exists σ1; apply runs_bind_Err, P].
  destruct P as (l1 & R1 & H1).
  assert (σ1 !! g_DS_SIC g = Some (OSic d)) as Hd1
    by (eapply lookup_weaken; [exact Hd | apply R1]).
  destruct (sic_sel_day d day) as [l |e] eqn:E; cbn [mbind result_bind].
  2:{ exists σ1.
      eapply runs_bind_Ok; [exact R1 |].
      eapply runs_bind_Ok; [apply runs_get_sic, Hd1 |]. cbn beta. rewrite E.
      apply runs_bind_Err, runs_lift. }
  destruct (runs_new (OSicArray l) σ1) as (l2 & R2 & F2).
  set (σ2 := <[l2 := OSicArray l]> σ1) in *.
  set (mean := {| m_sic := mean_over_time l; m_lat := sic_lat d; m_lon := sic_lon d |}).
  set (om := if show_sic && (0 <? length l)%nat then Some mean else None).
  assert (exists lm σ3,
            runs_to (if show_sic && (0 <? length l)%nat
                     then m ← new (OSicMean mean); mret (Some m)
                     else mret None) σ2 (Ok lm) σ3 /\
            match lm, om with
            | Some l0, Some m0 => σ3 !! l0 = Some (OSicMean m0)
            | None, None => True
            | _, _ => False
            end) as (lm & σ3 & R3 & H3).
  { subst om. destruct (show_sic && (0 <? length l)%nat).
    - destruct (runs_new (OSicMean mean) σ2) as (l3 & R3 & F3).
      exists (Some l3), (<[l3 := OSicMean mean]> σ2). split.
      + eapply runs_bind_Ok; [exact R3 | apply runs_ret].
      + apply lookup_insert_eq.
    - exists None, σ2. split; [apply runs_ret | exact I]. }
  assert (σ3 !! l1 = Some (ONav ds_day)) as H13.
  { eapply lookup_weaken; [| apply R3]. eapply lookup_weaken; [exact H1 | apply R2]. }
  destruct (build_timeseries_m_computes l1 ds_day size alpha σ3 H13) as (l4 & σ4 & R4 & H4).
  assert (σ4 !! l1 = Some (ONav ds_day)) as H14
    by (eapply lookup_weaken; [exact H13 | apply R4]).
  assert (match lm, om with
          | Some l0, Some m0 => σ4 !! l0 = Some (OSicMean m0)
          | None, None => True
          | _, _ => False
          end) as Hm4.
  { destruct lm, om; try exact H3. eapply lookup_weaken; [exact H3 | apply R4]. }
  destruct (build_map_m_computes l1 ds_day lm om (size + 1) alpha show_sic σ4 H14 Hm4)
    as (l5 & σ5 & R5 & H5).
  assert (σ5 !! l4 = Some (OLayout (build_timeseries ds_day size alpha))) as H45
    by (eapply lookup_weaken; [exact H4 | apply R5]).
  set (out := {| mp := build_map ds_day om (size + 1) alpha show_sic;
                 ts := build_timeseries ds_day size alpha |}).
  destruct (runs_new (OColumn out) σ5) as (l6 & R6 & F6).
  exists (<[l6 := OColumn out]> σ5), l6. split; [| apply lookup_insert_eq].
  eapply runs_bind_Ok; [exact R1 |].
  eapply runs_bind_Ok; [apply runs_get_sic, Hd1 |]. cbn beta. rewrite E.
  eapply runs_bind_Ok; [apply runs_lift |].
  eapply runs_bind_Ok; [exact R2 |].
  eapply runs_bind_Ok; [exact R3 |].
  eapply runs_bind_Ok; [exact R4 |].
  eapply runs_bind_Ok; [exact R5 |].
  eapply runs_bind_Ok; [apply runs_get_layout, H45 |].
  eapply runs_bind_Ok; [apply runs_get_plot, H5 |].
  exact R6.
Qed.

(** *** What a computation leaves of the module-level objects *)

Lemma boots_weaken (g : globals) (ds : nav_dataset) (d : sic_dataset) (σ σ' : store) :
  σ ⊆ σ' -> boots g ds d σ -> boots g ds d σ'.
Proof.
  intros S (H1 & H2 & (w & H3) & (p & H4)).
  split; [| split; [| split]].
  - eapply lookup_weaken; eassumption.
  - eapply lookup_weaken; eassumption.
  - exists w. eapply lookup_weaken; eassumption.
  - exists p. eapply lookup_weaken; eassumption.
Qed.

Lemma keeps_ret {A} (g : globals) (a : A) : keeps_sources g (mret a).
Proof. intros ds d σ H. exact H. Qed.

Lemma keeps_raise {A} (g : globals) (e : exn) : keeps_sources g (@raise A e).
Proof. intros ds d σ H. exact H. Qed.

Lemma keeps_lift {A} (g : globals) (r : result A) : keeps_sources g (lift r).
Proof. intros ds d σ H. exact H. Qed.

Lemma keeps_get (g : globals) (l : loc) : keeps_sources g (get l).
Proof. intros ds d σ H. unfold get. destruct (σ !! l); exact H. Qed.

Lemma keeps_new (g : globals) (o : obj) : keeps_sources g (new o).
Proof.
  intros ds d σ H. cbn. eapply boots_weaken; [| exact H].
  apply insert_subseteq, fresh_free.
Qed.

Lemma keeps_bind {A B} (g : globals) (m : M A) (k : A -> M B) :
  keeps_sources g m -> (forall a, keeps_sources g (k a)) -> keeps_sources g (m ≫= k).
Proof.
  intros Hm Hk ds d σ H. specialize (Hm ds d σ H).
  unfold mbind, M_bind. destruct (m σ) as [[a | e] σ']; cbn [snd] in *.
  - apply Hk, Hm.
  - exact Hm.
Qed.

(** An assignment to the slider puts a slider where the slider was. *)
Lemma keeps_set_slider (g : globals) (w : DatetimeRangeSlider) :
  keeps_sources g (set (g_w_timerange g) (OSlider w)).
Proof.
  intros ds d σ (H1 & H2 & (w0 & H3) & (p & H4)). cbn.
  split; [| split; [| split]].
  - rewrite lookup_insert_ne by congruence. exact H1.
  - rewrite lookup_insert_ne by congruence. exact H2.
  - exists w. apply lookup_insert_eq.
  - exists p. rewrite lookup_insert_ne by congruence. exact H4.
Qed.

(** The pane displays another output. *)
Lemma keeps_set_pane (g : globals) (shown : option loc) :
  keeps_sources g (set (g_pane g) (OPane shown)).
Proof.
  intros ds d σ (H1 & H2 & (w & H3) & (p & H4)). cbn.
  split; [| split; [| split]].
  - rewrite lookup_insert_ne by congruence. exact H1.
  - rewrite lookup_insert_ne by congruence. exact H2.
  - exists w. rewrite lookup_insert_ne by congruence. exact H3.
  - exists shown. apply lookup_insert_eq.
Qed.

Lemma keeps_get_nav (g : globals) (l : loc) : keeps_sources g (get_nav l).
Proof.
  apply keeps_bind; [apply keeps_get |].
  intros []; first [apply keeps_ret | apply keeps_raise].
Qed.

Lemma keeps_get_sic (g : globals) (l : loc) : keeps_sources g (get_sic l).
Proof.
  apply keeps_bind; [apply keeps_get |].
  intros []; first [apply keeps_ret | apply keeps_raise].
Qed.

Lemma keeps_get_sic_mean (g : globals) (l : loc) : keeps_sources g (get_sic_mean l).
Proof.
  apply keeps_bind; [apply keeps_get |].
  intros []; first [apply keeps_ret | apply keeps_raise].
Qed.

Lemma keeps_get_slider (g : globals) (l : loc) : keeps_sources g (get_slider l).
Proof.
  apply keeps_bind; [apply keeps_get |].
  intros []; first [apply keeps_ret | apply keeps_raise].
Qed.

Lemma keeps_get_frame (g : globals) (l : loc) : keeps_sources g (get_frame l).
Proof.
  apply keeps_bind; [apply keeps_get |].
  intros []; first [apply keeps_ret | apply keeps_raise].
Qed.

Lemma keeps_get_plot (g : globals) (l : loc) : keeps_sources g (get_plot l).
Proof.
  apply keeps_bind; [apply keeps_get |].
  intros []; first [apply keeps_ret | apply keeps_raise].
Qed.

Lemma keeps_get_layout (g : globals) (l : loc) : keeps_sources g (get_layout l).
Proof.
  apply keeps_bind; [apply keeps_get |].
  intros []; first [apply keeps_ret | apply keeps_raise].
Qed.

Create HintDb frame.
#[local] Hint Resolve keeps_ret keeps_raise keeps_lift keeps_get keeps_new
  keeps_set_slider keeps_set_pane keeps_get_nav keeps_get_sic keeps_get_sic_mean
  keeps_get_slider keeps_get_frame keeps_get_plot keeps_get_layout : frame.

(** A computation that is known to keep the sources, or else a bind, a
    conditional or a match, taken apart. *)
Ltac frame :=
  repeat first
    [ solve [auto with frame]
    | apply keeps_bind; [| intros ?]
    | match goal with
      | |- keeps_sources _ (if ?b then _ else _) => destruct b
      | |- keeps_sources _ (match ?x with _ => _ end) => destruct x
      end ].

Lemma keeps_sel_day_m (g : globals) (l : loc) (day : Z) :
  keeps_sources g (_sel_day_m l day).
Proof. unfold _sel_day_m. frame. Qed.

Lemma keeps_prep_day_m (g : globals) (l : loc) (day k : Z) :
  keeps_sources g (_prep_day_m l day k).
Proof. unfold _prep_day_m. pose proof (keeps_sel_day_m g). frame. Qed.

Lemma keeps_filter_timerange_m (g : globals) (l : loc) (t_range : time_range) :
  keeps_sources g (_filter_timerange_m l t_range).
Proof. unfold _filter_timerange_m. frame. Qed.

Lemma keeps_ds_for_view_m (g : globals) (day k : Z) (t_range : time_range) :
  keeps_sources g (_ds_for_view_m g day k t_range).
Proof.
  unfold _ds_for_view_m.
  pose proof (keeps_prep_day_m g). pose proof (keeps_filter_timerange_m g). frame.
Qed.

Lemma keeps_build_timeseries_m (g : globals) (l : loc) (size : Z) (alpha : Q) :
  keeps_sources g (build_timeseries_m l size alpha).
Proof. unfold build_timeseries_m. frame. Qed.

Lemma keeps_build_map_m (g : globals) (l : loc) (lm : option loc)
    (size : Z) (alpha : Q) (show_sic : bool) :
  keeps_sources g (build_map_m l lm size alpha show_sic).
Proof. unfold build_map_m. frame. Qed.

Lemma keeps_view_m (g : globals) (day k : Z) (t_range : time_range)
    (size : Z) (alpha : Q) (show_sic : bool) :
  keeps_sources g (view_m g day k t_range size alpha show_sic).
Proof.
  unfold view_m.
  pose proof (keeps_ds_for_view_m g). pose proof (keeps_build_timeseries_m g).
  pose proof (keeps_build_map_m g). frame.
Qed.

Lemma keeps_render_m (g : globals) (day k : Z) (t_range : time_range)
    (size : Z) (alpha : Q) (show_sic : bool) :
  keeps_sources g (render_m g day k t_range size alpha show_sic).
Proof. unfold render_m. pose proof (keeps_view_m g). frame. Qed.

Lemma keeps_make_timerange_m (g : globals) (day : Z) (watch : time_range -> M unit) :
  (forall r, keeps_sources g (watch r)) ->
  keeps_sources g (_make_timerange_m g day watch).
Proof.
  intros Hw. unfold _make_timerange_m. pose proof (keeps_sel_day_m g). frame.
Qed.

Lemma keeps_on_day_change_m (g : globals) (day k size : Z) (alpha : Q) (show_sic : bool) :
  keeps_sources g (_on_day_change_m g day k size alpha show_sic).
Proof.
  unfold _on_day_change_m. apply keeps_make_timerange_m.
  intros r. apply keeps_render_m.
Qed.

Lemma keeps_exec_call (g : globals) (c : call) : keeps_sources g (exec_call g c).
Proof.
  destruct c; [apply keeps_render_m | apply keeps_on_day_change_m].
Qed.

Lemma run_calls_boots (g : globals) (ds : nav_dataset) (d : sic_dataset)
    (calls : list call) (σ : store) :
  boots g ds d σ -> boots g ds d (run_calls g calls σ).
Proof.
  revert σ. induction calls as [| c rest IH]; intros σ H; [exact H |].
  cbn [run_calls]. apply IH, keeps_exec_call, H.
Qed.

End StoreFacts.

(** C9: the navigation and the sea-ice dataset that were loaded at startup
    are objects of the store.  After any sequence of view evaluations and
    day changes (also ones that raise) the two objects are where they were
    and hold what they held; and in the store reached, the slicer and the
    view give what they give as functions of the two datasets alone, in
    new objects, without changing any object that was there. *)
Theorem sources_never_mutated
    (g : Store.globals) (ds : nav_dataset) (d : sic_dataset)
    (calls : list Store.call) (s : Store.store) :
  Store.boots g ds d s ->
  Store.run_calls g calls s !! Store.g_DS g = Some (Store.ONav ds) /\
  Store.run_calls g calls s !! Store.g_DS_SIC g = Some (Store.OSic d) /\
  (forall day k t_range,
     Store.computes (Store._ds_for_view_m g day k t_range) (Store.run_calls g calls s)
                    (_ds_for_view ds day k t_range) Store.ONav) /\
  (forall day k t_range size alpha show_sic,
     Store.computes (Store.view_m g day k t_range size alpha show_sic)
                    (Store.run_calls g calls s)
                    (view ds d day k t_range size alpha show_sic) Store.OColumn).
Proof.
  intros H.
  destruct (StoreFacts.run_calls_boots g ds d calls s H) as (H1 & H2 & _).
  split; [exact H1 |]. split; [exact H2 |]. split.
  - intros day k t_range. apply StoreFacts.ds_for_view_m_computes, H1.
  - intros day k t_range size alpha show_sic.
    apply StoreFacts.view_m_computes; assumption.
Qed.

Lemma sources_never_mutated_witness :
  Store.run_calls Store.names Store.session Store.heap !! 1%positive
    = Some (Store.ONav Examples.flight) /\
  Store.run_calls Store.names Store.session Store.heap !! 2%positive
    = Some (Store.OSic Examples.ice).
Proof.
  assert (Store.boots Store.names Examples.flight Examples.ice Store.heap) as H.
  { split; [| split; [| split]].
    - vm_compute. reflexivity.
    - vm_compute. reflexivity.
    - exists Examples.booted_slider. vm_compute. reflexivity.
    - exists None. vm_compute. reflexivity. }
  pose proof (sources_never_mutated Store.names Examples.flight Examples.ice
                Store.session Store.heap H) as P.
  exact (conj (proj1 P) (proj1 (proj2 P))).
Defined.

(** The session of the example: the second evaluation and the change to a
    day that the dataset does not have raise, the others return. *)
Example session_results :
  (fix go (cs : list Store.call) (s : Store.store) : list bool :=
     match cs with
     | [] => []
     | c :: rest =>
         is_ok (fst (Store.exec_call Store.names c s))
           :: go rest (snd (Store.exec_call Store.names c s))
     end) Store.session Store.heap
  = [true; false; true; false; true].
Proof. vm_compute. reflexivity. Qed.

(** * Further properties of the code *)

(** ** Hour of day *)

Lemma second_of_day_range (t : datetime64) : 0 <= second_of_day t < 86400.
Proof. unfold second_of_day, SECONDS_PER_DAY. apply Z.mod_pos_bound. lia. Qed.

(** Hours, minutes and seconds recompose to the second of the day. *)
Lemma hms_second_of_day (t : datetime64) :
  dt_hour t * 3600 + dt_minute t * 60 + dt_second t = second_of_day t.
Proof.
  unfold dt_hour, dt_minute, dt_second.
  generalize (second_of_day t). intros s.
  Z.div_mod_to_equations. lia.
Qed.

Lemma hod_value (t : datetime64) :
  hod t = Some (inject_Z (second_of_day t) / 3600)%Q.
Proof. unfold hod. rewrite hms_second_of_day. reflexivity. Qed.

Lemma hod_bounds (t : datetime64) :
  (0 <= inject_Z (second_of_day t) / 3600)%Q /\
  (inject_Z (second_of_day t) / 3600 < 24)%Q.
Proof.
  destruct (second_of_day_range t) as [H0 H1]. split.
  - apply Qle_shift_div_l; [reflexivity |].
    rewrite Qmult_0_l. change 0%Q with (inject_Z 0). rewrite <- Zle_Qle. exact H0.
  - apply Qlt_shift_div_r; [reflexivity |].
    change (24 * 3600)%Q with (inject_Z 86400). rewrite <- Zlt_Qlt. exact H1.
Qed.

(** X1: the hour-of-day coordinate assigned at load is finite, lies in
    [0, 24), and is the second of the day of the record divided by 3600;
    the other fields of the record are carried over. *)
Theorem assign_hour_of_day_range (r : nav_record) :
  hod_in_range (assign_hour_of_day r) /\
  hour_of_day (assign_hour_of_day r)
  = Some (inject_Z (second_of_day (r_time r)) / 3600)%Q /\
  time (assign_hour_of_day r) = r_time r /\
  latitude (assign_hour_of_day r) = r_latitude r /\
  longitude (assign_hour_of_day r) = r_longitude r.
Proof.
  split; [| split; [apply hod_value | repeat split]].
  unfold hod_in_range. cbn [assign_hour_of_day hour_of_day].
  rewrite hod_value. eexists. split; [reflexivity |]. apply hod_bounds.
Qed.

(** ** The list of days is sorted and free of duplicates *)

Lemma insert_unique_sorted (d : Z) (l : list Z) :
  StronglySorted Z.lt l -> StronglySorted Z.lt (insert_unique d l).
Proof.
  induction 1 as [| x r Hr IH Hx]; cbn.
  - repeat constructor.
  - destruct (Z.ltb_spec d x) as [Hlt | Hge].
    + constructor; [constructor; assumption |].
      constructor; [exact Hlt |].
      eapply Forall_impl; [exact Hx |]. cbn. intros; lia.
    + destruct (Z.eqb_spec d x) as [-> | Hne]; [constructor; assumption |].
      constructor; [exact IH |].
      apply List.Forall_forall. intros y Hy.
      apply In_insert_unique in Hy as [-> | Hy]; [lia |].
      rewrite List.Forall_forall in Hx. apply Hx, Hy.
Qed.

Lemma np_unique_sorted (l : list Z) : StronglySorted Z.lt (np_unique l).
Proof.
  induction l as [| x r IH]; cbn; [constructor |].
  apply insert_unique_sorted, IH.
Qed.

Lemma sorted_lt_NoDup (l : list Z) : StronglySorted Z.lt l -> List.NoDup l.
Proof.
  induction 1 as [| x r Hr IH Hx]; constructor; [| exact IH].
  intros Hin. rewrite List.Forall_forall in Hx. specialize (Hx _ Hin). lia.
Qed.

(** X2: the list of available days is in strictly increasing order, has
    no duplicate, and holds exactly the days of the records of the
    dataset. *)
Theorem DAYS_sorted_unique (ds : nav_dataset) :
  StronglySorted Z.lt (DAYS ds) /\
  List.NoDup (DAYS ds) /\
  (forall d, In d (DAYS ds) <-> exists s, In s ds /\ strftime_day (time s) = d).
Proof.
  split; [apply np_unique_sorted |].
  split; [apply sorted_lt_NoDup, np_unique_sorted | apply In_DAYS].
Qed.

(** ** Day slices *)

Lemma In_sel_day (ds : nav_dataset) (day : Z) (s : sample) :
  increasing time ds ->
  In s (_sel_day ds day) <-> In s ds /\ strftime_day (time s) = day.
Proof.
  intros H. rewrite sel_day_records by exact H. apply In_spec_select_day.
Qed.

Lemma sel_day_absent (ds : nav_dataset) (day : Z) :
  increasing time ds -> ~ In day (DAYS ds) -> _sel_day ds day = [].
Proof.
  intros H Hday. destruct (_sel_day ds day) as [| s r] eqn:E; [reflexivity |].
  exfalso. apply Hday, In_DAYS. exists s.
  apply In_sel_day; [exact H |]. rewrite E. left. reflexivity.
Qed.

(** X3: on a dataset indexed by increasing time, the slice of a day holds
    exactly the records whose timestamp falls on that day (up to its last
    nanosecond), so the slices of two different days share no record, and
    the slice is again indexed by increasing time. *)
Theorem sel_day_membership (ds : nav_dataset) (day : Z) :
  is_monotonic_increasing time ds = true ->
  (forall s, In s (_sel_day ds day) <->
             In s ds /\ day_lower day <= time s <= day_upper day) /\
  (forall day' s, In s (_sel_day ds day) -> In s (_sel_day ds day') -> day' = day) /\
  is_monotonic_increasing time (_sel_day ds day) = true.
Proof.
  intros H. apply is_monotonic_increasing_sound in H.
  split; [| split].
  - intros s. rewrite In_sel_day by exact H. rewrite strftime_day_bounds. reflexivity.
  - intros day' s H1 H2.
    apply In_sel_day in H1 as [_ H1]; [| exact H].
    apply In_sel_day in H2 as [_ H2]; [| exact H]. congruence.
  - apply is_monotonic_increasing_complete, sel_day_increasing, H.
Qed.

Lemma sel_day_membership_witness :
  (forall s, In s (_sel_day Examples.nav 19084) <->
             In s Examples.nav /\ day_lower 19084 <= time s <= day_upper 19084) /\
  (forall day' s, In s (_sel_day Examples.nav 19084) ->
                  In s (_sel_day Examples.nav day') -> day' = 19084) /\
  is_monotonic_increasing time (_sel_day Examples.nav 19084) = true.
Proof.
  assert (is_monotonic_increasing time Examples.nav = true) as H
    by (vm_compute; reflexivity).
  exact (sel_day_membership Examples.nav 19084 H).
Defined.

(** X4: for a day that is not among the days of the dataset the slice is
    empty, [_make_timerange] raises [ValueError] before it assigns
    anything, and the day-change callback leaves the application state as
    it was. *)
Theorem make_timerange_absent_day (st : app) (day : Z) :
  is_monotonic_increasing time (DS st) = true ->
  ~ In day (DAYS (DS st)) ->
  _sel_day (DS st) day = [] /\
  _make_timerange (DS st) day (w_timerange st) = Err ValueError /\
  _on_day_change day st = st.
Proof.
  intros H Hday. apply is_monotonic_increasing_sound in H.
  pose proof (sel_day_absent _ _ H Hday) as E.
  split; [exact E |].
  assert (_make_timerange (DS st) day (w_timerange st) = Err ValueError) as Herr
    by (unfold _make_timerange; rewrite E; reflexivity).
  split; [exact Herr |].
  unfold _on_day_change. rewrite Herr. reflexivity.
Qed.

Lemma make_timerange_absent_day_witness :
  _sel_day (DS Examples.booted) 19090 = [] /\
  _make_timerange (DS Examples.booted) 19090 (w_timerange Examples.booted) = Err ValueError /\
  _on_day_change 19090 Examples.booted = Examples.booted.
Proof.
  apply (make_timerange_absent_day Examples.booted 19090).
  - vm_compute. reflexivity.
  - vm_compute. intros [H | [H | []]]; discriminate H.
Defined.

(** ** Time-range filtering *)

Lemma In_sel_time {A} (tm : A -> datetime64) (l : list A) (lo hi : datetime64) (a : A) :
  increasing tm l ->
  In a (sel_time tm l lo hi) <-> In a l /\ lo <= tm a <= hi.
Proof.
  intros H. rewrite sel_time_filter by exact H.
  rewrite List.filter_In. unfold between.
  rewrite andb_true_iff, !Z.leb_le. reflexivity.
Qed.

(** X5: on a slice indexed by increasing time, filtering to a range with
    both bounds keeps exactly the records with [t0 <= time <= t1]; a range
    whose start is after its end keeps nothing, and a missing range or a
    missing bound keeps everything. *)
Theorem filter_timerange_membership (ds_day : nav_dataset) (t0 t1 : datetime64) :
  is_monotonic_increasing time ds_day = true ->
  (forall s, In s (_filter_timerange ds_day (Some (Some t0, Some t1))) <->
             In s ds_day /\ t0 <= time s <= t1) /\
  (t1 < t0 -> _filter_timerange ds_day (Some (Some t0, Some t1)) = []) /\
  _filter_timerange ds_day None = ds_day /\
  _filter_timerange ds_day (Some (None, Some t1)) = ds_day /\
  _filter_timerange ds_day (Some (Some t0, None)) = ds_day.
Proof.
  intros H. apply is_monotonic_increasing_sound in H.
  split; [| split; [| repeat split]].
  - intros s. cbn. apply In_sel_time, H.
  - intros Hinv. cbn.
    destruct (sel_time time ds_day t0 t1) as [| s r] eqn:E; [reflexivity |].
    assert (In s (sel_time time ds_day t0 t1)) as Hin by (rewrite E; left; reflexivity).
    apply In_sel_time in Hin as [_ Hin]; [lia | exact H].
Qed.

Lemma filter_timerange_membership_witness :
  is_monotonic_increasing time (_sel_day Examples.nav 19083) = true /\
  _filter_timerange (_sel_day Examples.nav 19083) (Some (None, Some 0))
  = _sel_day Examples.nav 19083.
Proof.
  assert (is_monotonic_increasing time (_sel_day Examples.nav 19083) = true) as H
    by (vm_compute; reflexivity).
  split; [exact H |].
  exact (proj1 (proj2 (proj2 (proj2
    (filter_timerange_membership (_sel_day Examples.nav 19083) 0 0 H))))).
Defined.

(** ** The default range spans the whole day *)

Lemma filter_all {A} (f : A -> bool) (l : list A) :
  Forall (fun a => f a = true) l -> List.filter f l = l.
Proof.
  induction 1 as [| a r Ha _ IH]; [reflexivity |].
  cbn. rewrite Ha, IH. reflexivity.
Qed.

(** What [_make_timerange] does for a day of the dataset. *)
Lemma make_timerange_success (ds : nav_dataset) (day : Z) (w : DatetimeRangeSlider) :
  increasing time ds -> In day (DAYS ds) ->
  exists t0 t1,
    _make_timerange ds day w = Ok (mk_slider (Some t0) (Some t1) (Some (Some t0, Some t1))) /\
    Forall (fun s => t0 <= time s <= t1) (_sel_day ds day) /\
    is_day_minimum ds day t0 /\ is_day_maximum ds day t1.
Proof.
  intros H Hday. apply In_DAYS in Hday as (s & Hs & Hsd).
  assert (In s (_sel_day ds day)) as Hin by (apply In_sel_day; tauto).
  unfold _make_timerange.
  destruct (time_min time (_sel_day ds day)) as [t0 |] eqn:E0;
    [| destruct (_sel_day ds day); [destruct Hin | discriminate]].
  destruct (time_max time (_sel_day ds day)) as [t1 |] eqn:E1;
    [| destruct (_sel_day ds day); [destruct Hin | discriminate]].
  apply time_min_spec in E0 as [(s0 & Hs0 & <-) Hmin].
  apply time_max_spec in E1 as [(s1 & Hs1 & <-) Hmax].
  exists (time s0), (time s1). split; [reflexivity |]. split; [| split; split].
  - apply List.Forall_forall. intros x Hx. split; [apply Hmin, Hx | apply Hmax, Hx].
  - exists s0. apply In_sel_day in Hs0; [tauto | exact H].
  - intros x Hx Hxd. apply Hmin, In_sel_day; tauto.
  - exists s1. apply In_sel_day in Hs1; [tauto | exact H].
  - intros x Hx Hxd. apply Hmax, In_sel_day; tauto.
Qed.

(** X6: without coarsening (a factor of at most 1), the range that
    [_make_timerange] puts on the slider for a day of the dataset is the
    full day: the view slicer called with that range returns every record
    of the day slice. *)
Theorem default_timerange_is_full_day
    (ds : nav_dataset) (day : Z) (w : DatetimeRangeSlider) (k : Z) :
  is_monotonic_increasing time ds = true ->
  In day (DAYS ds) ->
  k <= 1 ->
  exists w',
    _make_timerange ds day w = Ok w' /\
    _ds_for_view ds day k (slider_value w') = Ok (_sel_day ds day).
Proof.
  intros H Hday Hk. apply is_monotonic_increasing_sound in H.
  destruct (make_timerange_success ds day w H Hday) as (t0 & t1 & Hw & Hall & _).
  eexists. split; [exact Hw |].
  unfold _ds_for_view. rewrite prep_day_identity by exact Hk.
  cbn [mbind result_bind slider_value _filter_timerange]. f_equal.
  rewrite sel_time_filter by (apply sel_day_increasing, H).
  apply filter_all.
  eapply Forall_impl; [exact Hall |].
  cbn. intros s Hs. unfold between.
  apply andb_true_iff. split; apply Z.leb_le; lia.
Qed.

Lemma default_timerange_is_full_day_witness :
  exists w',
    _make_timerange Examples.nav 19083 (mk_slider None None None) = Ok w' /\
    _ds_for_view Examples.nav 19083 1 (slider_value w') = Ok (_sel_day Examples.nav 19083).
Proof.
  apply (default_timerange_is_full_day Examples.nav 19083 (mk_slider None None None) 1).
  - vm_compute. reflexivity.
  - vm_compute. left. reflexivity.
  - lia.
Defined.

(** ** The day slices partition the dataset *)

Lemma strftime_day_mono (t t' : datetime64) :
  t <= t' -> strftime_day t <= strftime_day t'.
Proof.
  intros H. unfold strftime_day. apply Z.div_le_mono; [reflexivity | exact H].
Qed.

Lemma insert_unique_least (d : Z) (u : list Z) :
  StronglySorted Z.lt u -> Forall (fun x => d <= x) u ->
  (insert_unique d u = d :: u /\ Forall (fun x => d < x) u) \/
  (exists u', u = d :: u' /\ insert_unique d u = u /\ Forall (fun x => d < x) u').
Proof.
  intros Hs Hle. destruct Hs as [| x r Hr Hx]; cbn.
  - left. split; [reflexivity | constructor].
  - inversion Hle as [| ? ? Hdx _]; subst.
    destruct (Z.ltb_spec d x) as [Hlt | Hge].
    + left. split; [reflexivity |]. constructor; [exact Hlt |].
      eapply Forall_impl; [exact Hx |]. cbn. intros; lia.
    + assert (d = x) as -> by lia. rewrite Z.eqb_refl.
      right. exists r. repeat split. exact Hx.
Qed.

Lemma select_day_cons_other (a : sample) (r : nav_dataset) (day : Z) :
  strftime_day (time a) <> day ->
  spec_select_day (a :: r) day = spec_select_day r day.
Proof.
  intros H. unfold spec_select_day, in_day. cbn.
  destruct (Z.eqb_spec (strftime_day (time a)) day); [contradiction | reflexivity].
Qed.

Lemma select_day_cons_same (a : sample) (r : nav_dataset) :
  spec_select_day (a :: r) (strftime_day (time a))
  = a :: spec_select_day r (strftime_day (time a)).
Proof. unfold spec_select_day, in_day. cbn. rewrite Z.eqb_refl. reflexivity. Qed.

Lemma select_days_cons_other (a : sample) (r : nav_dataset) (days : list Z) :
  Forall (fun d => strftime_day (time a) < d) days ->
  map (spec_select_day (a :: r)) days = map (spec_select_day r) days.
Proof.
  intros H. apply List.map_ext_in. intros d Hd.
  rewrite List.Forall_forall in H. specialize (H d Hd).
  apply select_day_cons_other. lia.
Qed.

Lemma select_days_partition (l : nav_dataset) :
  increasing time l ->
  concat (map (spec_select_day l) (DAYS l)) = l.
Proof.
  induction 1 as [| a r Hr IH Ha]; [reflexivity |].
  unfold DAYS in *. cbn [map np_unique fold_right].
  fold (np_unique (map (fun s => strftime_day (time s)) r)).
  set (u := np_unique (map (fun s => strftime_day (time s)) r)) in *.
  set (d := strftime_day (time a)).
  assert (Forall (fun x => d <= x) u) as Hle.
  { apply List.Forall_forall. intros x Hx. subst u.
    apply In_np_unique, List.in_map_iff in Hx as (s & <- & Hs).
    rewrite List.Forall_forall in Ha. apply strftime_day_mono, Ha, Hs. }
  destruct (insert_unique_least d u (np_unique_sorted _) Hle)
    as [[-> Hlt] | (u' & Eu & -> & Hlt)].
  - cbn [map concat]. subst d.
    rewrite select_day_cons_same, select_days_cons_other by exact Hlt.
    rewrite IH. unfold spec_select_day at 1. rewrite filter_none; [reflexivity |].
    apply List.Forall_forall. intros s Hs. unfold in_day. apply Z.eqb_neq. intros E.
    assert (In (strftime_day (time s)) u) as Hin
      by (subst u; apply In_np_unique, List.in_map_iff; exists s; tauto).
    rewrite List.Forall_forall in Hlt. specialize (Hlt _ Hin). lia.
  - rewrite Eu in *. cbn [map concat] in *. subst d.
    rewrite select_day_cons_same, select_days_cons_other by exact Hlt.
    rewrite <- app_comm_cons. f_equal. exact IH.
Qed.

(** X8: on a dataset indexed by increasing time, the slices of the days
    of [DAYS], taken in order and put end to end, give back the dataset:
    every record is in the slice of exactly one listed day, and none is
    lost or repeated. *)
Theorem day_slices_partition (ds : nav_dataset) :
  is_monotonic_increasing time ds = true ->
  concat (day_slices ds (DAYS ds)) = ds.
Proof.
  intros H. apply is_monotonic_increasing_sound in H.
  unfold day_slices.
  rewrite (List.map_ext (_sel_day ds) (spec_select_day ds))
    by (intros d; apply sel_day_records, H).
  apply select_days_partition, H.
Qed.

Lemma day_slices_partition_witness :
  concat (day_slices Examples.nav (DAYS Examples.nav)) = Examples.nav.
Proof.
  apply (day_slices_partition Examples.nav). vm_compute. reflexivity.
Defined.

(** ** Sums of float cells *)

Lemma Qsum_bounds (xs : list Q) (lo hi : Q) :
  Forall (fun x => lo <= x /\ x <= hi)%Q xs ->
  (inject_Z (Z.of_nat (length xs)) * lo <= Qsum xs /\
   Qsum xs <= inject_Z (Z.of_nat (length xs)) * hi)%Q.
Proof.
  induction 1 as [| x r [Hlo Hhi] _ [IH1 IH2]].
  - cbn [length Qsum]. change (inject_Z (Z.of_nat 0)) with 0%Q. split; lra.
  - cbn [length Qsum]. rewrite Nat2Z.inj_succ, <- Z.add_1_r, inject_Z_plus.
    change (inject_Z 1) with 1%Q. split; lra.
Qed.

Lemma Qsum_upper_strict (xs : list Q) (hi : Q) :
  xs <> [] ->
  Forall (fun x => x < hi)%Q xs ->
  (Qsum xs < inject_Z (Z.of_nat (length xs)) * hi)%Q.
Proof.
  intros Hne H. induction H as [| x r Hx Hr IH]; [contradiction |].
  cbn [length Qsum]. rewrite Nat2Z.inj_succ, <- Z.add_1_r, inject_Z_plus.
  change (inject_Z 1) with 1%Q.
  destruct r as [| y r'].
  - cbn [length Qsum]. change (inject_Z (Z.of_nat 0)) with 0%Q. lra.
  - assert (y :: r' <> []) as Hne' by discriminate. specialize (IH Hne'). lra.
Qed.

Lemma length_pos_Q {A} (x : A) (r : list A) :
  (0 < inject_Z (Z.of_nat (length (x :: r))))%Q.
Proof.
  change 0%Q with (inject_Z 0). rewrite <- Zlt_Qlt. cbn [length]. lia.
Qed.

Lemma omap_id_In (l : list fval) (x : Q) :
  In x (omap id l) <-> In (Some x) l.
Proof.
  induction l as [| v r IH]; cbn; [reflexivity |].
  destruct v as [q |]; cbn; rewrite IH; [| intuition discriminate].
  split; intros [H | H]; try (right; exact H); left; congruence.
Qed.

Lemma omap_id_nil (l : list fval) :
  omap id l = [] <-> Forall (fun v => isnan v = true) l.
Proof.
  induction l as [| v r IH]; cbn.
  - split; [constructor | reflexivity].
  - destruct v as [q |]; cbn.
    + split; [discriminate |]. intros H. inversion H; discriminate.
    + rewrite IH. split; [constructor; [reflexivity | assumption] |].
      intros H. inversion H; assumption.
Qed.

(** ** The hour of day stays within the color limits *)

Lemma nanmean_in_range (l : list fval) (lo hi : Q) :
  l <> [] ->
  Forall (fun v => exists q, v = Some q /\ (lo <= q)%Q /\ (q < hi)%Q) l ->
  exists q, nanmean l = Some q /\ (lo <= q)%Q /\ (q < hi)%Q.
Proof.
  intros Hne H.
  assert (omap id l <> [] /\
          Forall (fun x => (lo <= x)%Q /\ (x < hi)%Q) (omap id l)) as [Hne' HF].
  { induction H as [| v r (q & -> & Hq) Hr IH]; [contradiction |].
    cbn. split; [discriminate |]. constructor; [exact Hq |].
    destruct r as [| v' r']; [constructor |]. apply IH. discriminate. }
  unfold nanmean. destruct (omap id l) as [| x r]; [contradiction |].
  eexists. split; [reflexivity |].
  pose proof (length_pos_Q x r) as Hpos. split.
  - apply Qle_shift_div_l; [exact Hpos |].
    assert (Forall (fun y => lo <= y /\ y <= hi)%Q (x :: r)) as HF'
      by (eapply Forall_impl; [exact HF |]; cbn; intros; lra).
    destruct (Qsum_bounds _ _ _ HF') as [H1 _]. rewrite Qmult_comm. exact H1.
  - apply Qlt_shift_div_r; [exact Hpos |].
    rewrite Qmult_comm. apply Qsum_upper_strict; [discriminate |].
    eapply Forall_impl; [exact HF |]. cbn. intros; lra.
Qed.

Lemma mean_block_hod (b : list sample) :
  b <> [] -> Forall hod_in_range b -> hod_in_range (mean_block b).
Proof.
  intros Hne H. unfold hod_in_range. cbn [mean_block hour_of_day].
  apply nanmean_in_range.
  - destruct b; [contradiction | discriminate].
  - apply Forall_map. exact H.
Qed.

Lemma reshape_Forall (P : sample -> Prop) (k n : nat) (l : list sample) :
  (1 <= k)%nat -> (k * n <= length l)%nat -> Forall P l ->
  Forall (fun b => b <> [] /\ Forall P b) (reshape k n l).
Proof.
  intros Hk. revert l. induction n as [| n IH]; intros l Hlen H; cbn; [constructor |].
  constructor.
  - split; [| apply Forall_take, H].
    intros E. apply (f_equal (@length sample)) in E.
    rewrite length_take in E. cbn in E. lia.
  - apply IH; [rewrite length_drop; lia | apply Forall_drop, H].
Qed.

Lemma sel_time_Forall {A} (tm : A -> datetime64) (P : A -> Prop)
    (l : list A) (lo hi : datetime64) :
  Forall P l -> Forall P (sel_time tm l lo hi).
Proof. intros H. unfold sel_time, isel. apply Forall_take, Forall_drop, H. Qed.

Lemma coarsen_mean_hod (k : Z) (ds out : nav_dataset) :
  1 <= k -> Forall hod_in_range ds -> coarsen_mean k ds = Ok out ->
  Forall hod_in_range out.
Proof.
  intros Hk H E. apply coarsen_mean_inv in E as [-> _].
  rewrite coarsen_trim_take. apply Forall_map.
  eapply Forall_impl.
  - apply (reshape_Forall hod_in_range); [lia | | apply Forall_take, H].
    rewrite length_take.
    pose proof (Nat.Div0.mul_div_le (length ds) (Z.to_nat k)). lia.
  - cbn. intros b [Hne Hb]. apply mean_block_hod; assumption.
Qed.

(** X10: every record that the view slicer returns from a loaded
    navigation dataset has a finite hour of day in [0, 24), whatever the
    day, the coarsening factor and the time range: selection keeps the
    coordinate and the mean of a window stays within the limits. *)
Theorem view_hour_of_day_in_range
    (records : list nav_record) (day k : Z) (t_range : time_range) (out : nav_dataset) :
  _ds_for_view (map assign_hour_of_day records) day k t_range = Ok out ->
  Forall hod_in_range out.
Proof.
  intros E.
  assert (Forall hod_in_range (map assign_hour_of_day records)) as Hload.
  { apply Forall_map, List.Forall_forall. intros r _. cbn.
    unfold hod_in_range. cbn [assign_hour_of_day hour_of_day].
    rewrite hod_value. eexists. split; [reflexivity | apply hod_bounds]. }
  apply ds_for_view_inv in E as (prepared & Ep & ->).
  assert (Forall hod_in_range prepared) as Hprep.
  { unfold _prep_day in Ep. rewrite coarsen_condition in Ep.
    destruct (Z.ltb_spec 1 k).
    - eapply coarsen_mean_hod; [| | exact Ep]; [lia | apply sel_time_Forall, Hload].
    - injection Ep as <-. apply sel_time_Forall, Hload. }
  unfold _filter_timerange.
  destruct t_range as [[[t0 |] [t1 |]] |]; try exact Hprep.
  apply sel_time_Forall, Hprep.
Qed.

Lemma view_hour_of_day_in_range_witness :
  exists out,
    _ds_for_view (map assign_hour_of_day Examples.nav_records) 19083 2 Examples.noon = Ok out /\
    Forall hod_in_range out.
Proof.
  destruct (_ds_for_view (map assign_hour_of_day Examples.nav_records) 19083 2 Examples.noon)
    as [out | e] eqn:E; [| vm_compute in E; discriminate E].
  exists out. split; [reflexivity |].
  exact (view_hour_of_day_in_range Examples.nav_records 19083 2 Examples.noon out E).
Defined.

(** ** The SIC raster stays within the masked range *)

Lemma In_sel_time_any {A} (tm : A -> datetime64) (l : list A) (lo hi : datetime64) (a : A) :
  In a (sel_time tm l lo hi) -> In a l.
Proof.
  intros H.
  assert (Forall (fun x => In x l) (sel_time tm l lo hi)) as HF
    by (apply sel_time_Forall, List.Forall_forall; auto).
  rewrite List.Forall_forall in HF. apply HF, H.
Qed.

Lemma where_sic_series_cells (d : sic_dataset) (l : list sic_slice) (lat lon : list fval) :
  where_sic d = SicSeries l lat lon ->
  forall s q, In s l -> In (Some q) (sic s) -> (q <= 100)%Q.
Proof.
  destruct d as [l0 lat0 lon0 | s0 lat0 lon0]; cbn; [| discriminate].
  intros [= <- <- <-] s q Hs Hq.
  apply List.in_map_iff in Hs as (s' & <- & _). cbn in Hq.
  apply List.in_map_iff in Hq as (v & Hv & _).
  apply where_le_100_bound in Hv. apply Hv.
Qed.

Lemma mean_over_time_upper (l : list sic_slice) (hi : Q) :
  (forall s q, In s l -> In (Some q) (sic s) -> (q <= hi)%Q) ->
  forall q, In (Some q) (mean_over_time l) -> (q <= hi)%Q.
Proof.
  intros H q Hq. unfold mean_over_time in Hq.
  destruct l as [| s0 r]; [destruct Hq |].
  apply List.in_map_iff in Hq as (i & Hi & _).
  set (lane := map (fun s : sic_slice => nth i (sic s) NaN) (s0 :: r)) in *.
  assert (forall x, In (Some x) lane -> (x <= hi)%Q) as Hlane.
  { intros x Hx.
    apply List.in_map_iff in Hx as (s & Hnth & Hs).
    destruct (nth_in_or_default i (sic s) NaN) as [Hin | Hdef].
    - rewrite Hnth in Hin. exact (H s x Hs Hin).
    - rewrite Hnth in Hdef. discriminate. }
  unfold nanmean in Hi.
  destruct (omap id lane) as [| x xs] eqn:E; [discriminate |].
  injection Hi as <-.
  assert (Forall (fun y => y <= hi)%Q (x :: xs)) as HF.
  { apply List.Forall_forall. intros y Hy. apply Hlane.
    apply (proj1 (omap_id_In lane y)). rewrite E. exact Hy. }
  assert (Qsum (x :: xs) <= inject_Z (Z.of_nat (length (x :: xs))) * hi)%Q as Hsum.
  { clear -HF. induction HF as [| y ys Hy _ IH].
    - cbn [length Qsum]. change (inject_Z (Z.of_nat 0)) with 0%Q. lra.
    - cbn [length Qsum]. rewrite Nat2Z.inj_succ, <- Z.add_1_r, inject_Z_plus.
      change (inject_Z 1) with 1%Q. lra. }
  apply Qle_shift_div_r; [exact (length_pos_Q x xs) |].
  rewrite Qmult_comm. exact Hsum.
Qed.

(** X11: whatever the settings, every finite cell of the raster that
    [view] puts on the map, computed from the datasets that [load_data]
    returned, is at most 100, the upper color limit of the layer. *)
Theorem raster_cells_at_most_100
    (fs : filesystem) (ds : nav_dataset) (d : sic_dataset)
    (day k : Z) (t_range : time_range) (size : Z) (alpha : Q) (show_sic : bool)
    (out : dashboard) (m : sic_day_mean) :
  load_data fs = Ok (ds, d) ->
  view ds d day k t_range size alpha show_sic = Ok out ->
  raster_of (mp out) = Some m ->
  forall q, In (Some q) (m_sic m) -> (q <= 100)%Q.
Proof.
  intros Hload Hview Hraster.
  destruct (load_data_inv _ _ _ Hload) as (_ & _ & _ & f & _ & _ & _ & _ & _ & Hd).
  destruct (view_inv _ _ _ _ _ _ _ _ _ Hview) as (_ & l' & _ & Hl & _).
  rewrite (raster_of_view _ _ _ _ _ _ _ _ _ _ Hview Hl) in Hraster.
  destruct d as [l lat lon | s lat lon]; [| discriminate Hl].
  cbn [sic_sel_day] in Hl. injection Hl as <-.
  destruct (show_sic && (0 <? length _)%nat); [| discriminate Hraster].
  injection Hraster as <-. cbn [m_sic].
  apply mean_over_time_upper. intros s q Hs Hq.
  apply In_sel_time_any in Hs.
  exact (where_sic_series_cells _ _ _ _ (eq_sym Hd) s q Hs Hq).
Qed.

Lemma raster_cells_at_most_100_witness :
  load_data Examples.disk = Ok (Examples.nav, Examples.ice) /\
  (forall q,
      In (Some q) (mean_over_time
                     (sel_time sic_time (map where_slice (f_slices Examples.sic_april))
                        (day_lower 19083) (day_upper 19083))) ->
      (q <= 100)%Q).
Proof.
  assert (load_data Examples.disk = Ok (Examples.nav, Examples.ice)) as Hload
    by (vm_compute; reflexivity).
  split; [exact Hload |].
  exact (raster_cells_at_most_100 Examples.disk Examples.nav Examples.ice
           19083 1 None 5 (9 # 10) true _ _ Hload eq_refl eq_refl).
Defined.

(** ** Masking and squeezing the SIC dataset *)

Lemma where_le_100_idempotent (v : fval) :
  where_le_100 (where_le_100 v) = where_le_100 v.
Proof.
  destruct v as [q |]; cbn; [| reflexivity].
  destruct (Qle_bool q 100) eqn:E; cbn; [rewrite E |]; reflexivity.
Qed.

Lemma where_slice_idempotent (s : sic_slice) :
  where_slice (where_slice s) = where_slice s.
Proof.
  unfold where_slice. cbn. f_equal. rewrite List.map_map.
  apply List.map_ext, where_le_100_idempotent.
Qed.

(** X12: masking the SIC field keeps the number of its cells, and
    masking an already masked dataset changes nothing. *)
Theorem where_sic_idempotent (d : sic_dataset) :
  where_sic (where_sic d) = where_sic d /\
  length (sic_cells (where_sic d)) = length (sic_cells d).
Proof.
  split.
  - destruct d as [l lat lon | s lat lon]; cbn.
    + f_equal. rewrite List.map_map. apply List.map_ext, where_slice_idempotent.
    + f_equal. apply where_slice_idempotent.
  - rewrite sic_cells_where. apply length_map.
Qed.

(** X13: if the SIC file that was loaded holds exactly one time, [view]
    raises for every day and every setting, because the squeeze at load
    removed the time dimension that the day selection needs. *)
Theorem view_fails_on_single_sic_time
    (fs : filesystem) (ds : nav_dataset) (d : sic_dataset) (p : string) (f : sic_file)
    (day k : Z) (t_range : time_range) (size : Z) (alpha : Q) (show_sic : bool) :
  load_data fs = Ok (ds, d) ->
  SIC_PATH fs = Ok p ->
  fs !! p = Some (SicFile f) ->
  length (f_slices f) = 1%nat ->
  is_ok (view ds d day k t_range size alpha show_sic) = false.
Proof.
  intros Hload Hp Hf Hlen.
  destruct (load_data_inv _ _ _ Hload) as (_ & p' & _ & f' & _ & Hp' & _ & Hf' & _ & ->).
  assert (p' = p) as -> by congruence.
  assert (f' = f) as -> by congruence.
  unfold squeeze.
  destruct (f_slices f) as [| s [| s' r]]; try discriminate Hlen.
  unfold view. destruct (_ds_for_view ds day k t_range); reflexivity.
Qed.

Lemma view_fails_on_single_sic_time_witness :
  is_ok (view Examples.nav MoreExamples.ice_one_time 19083 1 None 5 (9 # 10) true) = false.
Proof.
  assert (load_data MoreExamples.disk_one_time
          = Ok (Examples.nav, MoreExamples.ice_one_time)) as Hload
    by (vm_compute; reflexivity).
  assert (SIC_PATH MoreExamples.disk_one_time = Ok Examples.sic_path) as Hp
    by (vm_compute; reflexivity).
  assert (MoreExamples.disk_one_time !! Examples.sic_path
          = Some (SicFile MoreExamples.sic_one_time)) as Hf
    by (vm_compute; reflexivity).
  exact (view_fails_on_single_sic_time _ _ _ _ _
           19083 1 None 5 (9 # 10) true Hload Hp Hf eq_refl).
Defined.

(** ** Path resolution on any candidate list *)

Lemma first_existing_exists (fs : filesystem) (candidates : list string) (p : string) :
  first_existing fs candidates = Some p -> In p candidates /\ path_exists fs p = true.
Proof.
  induction candidates as [| c rest IH]; cbn; [discriminate |].
  destruct (path_exists fs c) eqn:E.
  - intros [= <-]. split; [left; reflexivity | exact E].
  - intros H. destruct (IH H). split; [right |]; assumption.
Qed.

(** X14: path resolution raises [IndexError] exactly on an empty
    candidate list; otherwise it returns one of the candidates, and the
    path it returns exists if and only if some candidate exists. *)
Theorem resolve_path_member (fs : filesystem) (candidates : list string) :
  (_resolve_path fs candidates = Err IndexError <-> candidates = []) /\
  (forall e, _resolve_path fs candidates = Err e -> e = IndexError) /\
  (forall p, _resolve_path fs candidates = Ok p ->
             In p candidates /\
             (path_exists fs p = true <->
              exists q, In q candidates /\ path_exists fs q = true)).
Proof.
  unfold _resolve_path.
  destruct (first_existing fs candidates) as [p0 |] eqn:E.
  - apply first_existing_exists in E as [Hin Hex].
    split; [| split].
    + split; [discriminate |]. intros ->. destruct Hin.
    + discriminate.
    + intros p [= <-]. split; [exact Hin |]. split; [| intros _; exact Hex].
      intros _. exists p0. split; assumption.
  - apply first_existing_None in E.
    destruct candidates as [| c rest]; (split; [| split]).
    + split; reflexivity.
    + intros e [= <-]. reflexivity.
    + discriminate.
    + split; discriminate.
    + discriminate.
    + intros p [= <-]. split; [left; reflexivity |].
      split; [intros H; exists c; split; [left; reflexivity | exact H] |].
      intros (q & Hq & Hex). rewrite List.Forall_forall in E.
      rewrite (E q Hq) in Hex. discriminate.
Qed.

(** ** Startup on a well-formed dataset *)

Lemma DAYS_head_least (ds : nav_dataset) (d0 : Z) (rest : list Z) :
  DAYS ds = d0 :: rest -> forall d, In d (DAYS ds) -> d0 <= d.
Proof.
  intros E d Hd. pose proof (np_unique_sorted (map (fun s => strftime_day (time s)) ds)) as Hs.
  fold (DAYS ds) in Hs. rewrite E in Hs, Hd.
  inversion Hs as [| ? ? _ Hlt]; subst.
  destruct Hd as [<- | Hd]; [lia |].
  rewrite List.Forall_forall in Hlt. specialize (Hlt _ Hd). lia.
Qed.

(** X15: when startup succeeds on a navigation dataset indexed by
    increasing time, the selected day is the earliest day of [DAYS], the
    sliders have their default values (coarsening 20, marker size 5, SIC
    shown), and the time-range slider spans that day from its least to its
    greatest timestamp. *)
Theorem startup_selects_first_day (fs : filesystem) (st : app) :
  startup fs = Ok st ->
  is_monotonic_increasing time (DS st) = true ->
  In (w_day st) (DAYS (DS st)) /\
  (forall d, In d (DAYS (DS st)) -> w_day st <= d) /\
  w_coarsen st = 20 /\ w_pointsize st = 5 /\ w_show_sic st = true /\
  exists t0 t1,
    w_timerange st = mk_slider (Some t0) (Some t1) (Some (Some t0, Some t1)) /\
    is_day_minimum (DS st) (w_day st) t0 /\
    is_day_maximum (DS st) (w_day st) t1.
Proof.
  unfold startup.
  destruct (load_data fs) as [[ds ds_sic] | e]; cbn [mbind result_bind]; [| discriminate].
  destruct (DAYS ds) as [| d0 rest] eqn:Ed; cbn [length Nat.eqb]; [discriminate |].
  cbn [DS w_day w_timerange nth].
  destruct (_make_timerange ds d0 _) as [w | e] eqn:Ew; cbn [mbind result_bind];
    [| discriminate].
  destruct (view _ _ _ _ _ _ _ _) as [out | e]; cbn [mbind result_bind]; [| discriminate].
  intros [= <-] Hmono. cbn [set_pane set_w_timerange DS w_day w_coarsen
                             w_pointsize w_show_sic w_timerange] in *.
  apply is_monotonic_increasing_sound in Hmono.
  assert (In d0 (DAYS ds)) as Hin by (rewrite Ed; left; reflexivity).
  split; [rewrite Ed; left; reflexivity |].
  split; [apply (DAYS_head_least ds d0 rest Ed) |].
  repeat (split; [reflexivity |]).
  destruct (make_timerange_success ds d0 (mk_slider None None None) Hmono Hin)
    as (t0 & t1 & Hw & _ & Hmin & Hmax).
  exists t0, t1. rewrite Hw in Ew. injection Ew as <-.
  split; [reflexivity | split; assumption].
Qed.

Lemma startup_selects_first_day_witness :
  In (w_day Examples.started) (DAYS (DS Examples.started)) /\
  (forall d, In d (DAYS (DS Examples.started)) -> w_day Examples.started <= d).
Proof.
  assert (startup Examples.flight_disk = Ok Examples.started) as H
    by (vm_compute; reflexivity).
  assert (is_monotonic_increasing time (DS Examples.started) = true) as Hm
    by (vm_compute; reflexivity).
  pose proof (startup_selects_first_day Examples.flight_disk Examples.started H Hm) as P.
  exact (conj (proj1 P) (proj1 (proj2 P))).
Defined.

(** X16: the default coarsening factor is 20, and the template evaluates
    the view once at startup: when the data are loaded, the navigation
    dataset is indexed by increasing time and is not empty, but its first
    day has fewer than 20 records, startup fails with the [ValueError] of
    the coarsening. *)
Theorem startup_fails_on_short_first_day
    (fs : filesystem) (ds : nav_dataset) (ds_sic : sic_dataset) :
  load_data fs = Ok (ds, ds_sic) ->
  is_monotonic_increasing time ds = true ->
  ds <> [] ->
  (length (_sel_day ds (nth 0%nat (DAYS ds) 0%Z)) < 20)%nat ->
  startup fs = Err ValueError.
Proof.
  intros Hload Hmono Hne Hshort. apply is_monotonic_increasing_sound in Hmono.
  unfold startup. rewrite Hload. cbn [mbind result_bind].
  destruct (DAYS ds) as [| d0 rest] eqn:Ed; cbn [length Nat.eqb].
  - apply DAYS_nil in Ed. contradiction.
  - cbn [DS w_day w_timerange nth] in *.
    assert (In d0 (DAYS ds)) as Hin by (rewrite Ed; left; reflexivity).
    destruct (make_timerange_success ds d0 (mk_slider None None None) Hmono Hin)
      as (t0 & t1 & Hw & _).
    rewrite Hw. cbn [mbind result_bind set_w_timerange DS DS_SIC w_day w_coarsen
                       w_timerange slider_value w_pointsize w_alpha w_show_sic].
    unfold view, _ds_for_view.
    rewrite prep_day_raises by lia. reflexivity.
Qed.

Lemma startup_fails_on_short_first_day_witness :
  startup Examples.disk = Err ValueError.
Proof.
  apply (startup_fails_on_short_first_day Examples.disk Examples.nav Examples.ice).
  - vm_compute. reflexivity.
  - vm_compute. reflexivity.
  - discriminate.
  - vm_compute. lia.
Defined.

(** ** The track and the panels of one view *)

Lemma track_of_build_map_rows (ds_day : nav_dataset) (m : option sic_day_mean)
    (size : Z) (alpha : Q) (show_sic : bool) :
  track_of (build_map ds_day m size alpha show_sic)
  = {| pt_rows := map (fun s => (time s, longitude s, latitude s, hour_of_day s))
                      (dropna ds_day);
       pt_size := size; pt_alpha := alpha |}.
Proof. unfold build_map. destruct show_sic, m; reflexivity. Qed.

Lemma dropna_finite (ds : nav_dataset) :
  Forall (fun s => isnan (longitude s) = false /\ isnan (latitude s) = false) (dropna ds).
Proof.
  apply List.Forall_forall. intros s Hs. unfold dropna in Hs.
  apply List.filter_In in Hs as [_ Hs]. apply andb_true_iff in Hs as [H1 H2].
  split; apply negb_true_iff; assumption.
Qed.

Lemma dropna_sublist (ds : nav_dataset) : sublist (dropna ds) ds.
Proof.
  unfold dropna. induction ds as [| s r IH]; cbn; [constructor |].
  destruct (negb (isnan (longitude s)) && negb (isnan (latitude s)));
    [apply sublist_skip | apply sublist_cons]; exact IH.
Qed.

Lemma dropna_all (ds : nav_dataset) :
  Forall (fun s => isnan (longitude s) = false /\ isnan (latitude s) = false) ds ->
  dropna ds = ds.
Proof.
  intros H. unfold dropna. apply filter_all.
  eapply Forall_impl; [exact H |]. cbn. intros s [-> ->]. reflexivity.
Qed.

(** X17: in the output of [view], the point track holds only records
    with a finite longitude and latitude, in the order of the slicer's
    result and without adding any (when no coordinate is NaN the track
    holds every record); the six time-series panels all plot every record
    of the slicer's result with the chosen marker size, and the markers of
    the track are one unit larger. *)
Theorem view_track_and_panels
    (ds : nav_dataset) (d : sic_dataset) (day k : Z) (t_range : time_range)
    (size : Z) (alpha : Q) (show_sic : bool) (out : dashboard) :
  view ds d day k t_range size alpha show_sic = Ok out ->
  exists ds_day,
    _ds_for_view ds day k t_range = Ok ds_day /\
    Forall (fun row => exists t lon lat h, row = (t, Some lon, Some lat, h))
           (pt_rows (track_of (mp out))) /\
    sublist (map row_time (pt_rows (track_of (mp out)))) (map time ds_day) /\
    (Forall (fun s => isnan (longitude s) = false /\ isnan (latitude s) = false) ds_day ->
     map row_time (pt_rows (track_of (mp out))) = map time ds_day) /\
    pt_size (track_of (mp out)) = size + 1 /\
    length (ts out) = 6%nat /\
    Forall (fun p => map point_time (sc_points p) = map time ds_day /\ sc_size p = size)
           (ts out).
Proof.
  intros Hv. apply view_inv in Hv as (ds_day & l & E & _ & ->).
  exists ds_day. split; [exact E |].
  cbn [mp ts]. rewrite track_of_build_map_rows. cbn [pt_rows pt_size].
  split; [| split; [| split; [| split; [reflexivity | split; [reflexivity |]]]]].
  - apply Forall_map. eapply Forall_impl; [apply dropna_finite |].
    cbn. intros s [H1 H2].
    destruct (longitude s) as [lon |]; [| discriminate].
    destruct (latitude s) as [lat |]; [| discriminate].
    eexists _, _, _, _. reflexivity.
  - rewrite List.map_map. cbn [row_time].
    exact (fmap_sublist time _ _ (dropna_sublist ds_day)).
  - intros H. rewrite dropna_all by exact H. rewrite List.map_map. reflexivity.
  - unfold build_timeseries, hvplot_scatter.
    repeat constructor; cbn [sc_points]; rewrite List.map_map; reflexivity.
Qed.

Lemma view_track_and_panels_witness :
  exists ds_day,
    _ds_for_view MoreExamples.nav_with_gap 19083 1 None = Ok ds_day /\
    sublist (map row_time
               (pt_rows (track_of (build_map (_sel_day MoreExamples.nav_with_gap 19083)
                                     None (5 + 1) (9 # 10) false))))
            (map time ds_day).
Proof.
  destruct (view_track_and_panels MoreExamples.nav_with_gap Examples.ice
              19083 1 None 5 (9 # 10) false _ eq_refl) as (ds_day & E & _ & S & _).
  exists ds_day. split; [exact E | exact S].
Defined.

Example track_drops_gap :
  map row_time
      (pt_rows (track_of (build_map (_sel_day MoreExamples.nav_with_gap 19083)
                            None 6 (9 # 10) false)))
  = [Examples.at_ 19083 36000; Examples.at_ 19083 36002].
Proof. reflexivity. Qed.

(** ** Colormap names *)

(** X18: [_cmap_name] passes a string through unchanged, the empty
    string included; for a colormap object it returns the object's name,
    and ["viridis"] when the name is missing, empty, or cannot be read,
    so that the result for an object is never empty; applying it to its
    own result changes nothing. *)
Theorem cmap_name_fallback (c : colormap) :
  (forall s, _cmap_name (CmapStr s) = s) /\
  (forall name, name <> ""%string -> _cmap_name (CmapObject (AttrValue name)) = name) /\
  _cmap_name (CmapObject (AttrValue "")) = "viridis"%string /\
  _cmap_name (CmapObject AttrMissing) = "viridis"%string /\
  _cmap_name (CmapObject AttrRaises) = "viridis"%string /\
  (forall a, _cmap_name (CmapObject a) <> ""%string) /\
  _cmap_name (CmapStr (_cmap_name c)) = _cmap_name c.
Proof.
  repeat split; try reflexivity.
  - intros name Hne. cbn. destruct name; [contradiction | reflexivity].
  - intros [| name |]; cbn; try discriminate.
    destruct name; cbn; discriminate.
Qed.

(** ** Hour ticks *)

Lemma dict_comprehension_lookup {V} (f : Z -> V) (keys : list Z) (m0 : gmap Z V) (i : Z) :
  fold_left (fun m k => <[k := f k]> m) keys m0 !! i
  = if decide (i ∈ keys) then Some (f i) else m0 !! i.
Proof.
  revert m0. induction keys as [| k rest IH]; intros m0; cbn [fold_left].
  - destruct (decide (i ∈ [])) as [H | _]; [| reflexivity].
    apply elem_of_nil in H. destruct H.
  - rewrite IH.
    destruct (decide (i ∈ rest)) as [Hin | Hout].
    + rewrite decide_True by (apply elem_of_cons; right; exact Hin). reflexivity.
    + destruct (decide (i = k)) as [-> | Hne].
      * rewrite decide_True by (apply elem_of_cons; left; reflexivity).
        apply lookup_insert_eq.
      * rewrite decide_False by (rewrite elem_of_cons; tauto).
        apply lookup_insert_ne. congruence.
Qed.

Lemma elem_of_range (start stop i : Z) : i ∈ range start stop <-> start <= i < stop.
Proof.
  unfold range. rewrite list_elem_of_In, List.in_map_iff. split.
  - intros (n & <- & Hn). apply List.in_seq in Hn. lia.
  - intros H. exists (Z.to_nat (i - start)). split; [lia |].
    apply List.in_seq. lia.
Qed.

(** X19: the hour-tick dictionary has exactly the 25 keys 0 to 24, both
    ends included, and maps each hour to a label of five characters, the
    hour zero-padded to two digits followed by [":00"]; distinct hours
    have distinct labels. *)
Theorem hour_ticks_keys (i : Z) :
  _hour_ticks !! i = (if decide (0 <= i <= 24) then Some (hour_label i) else None) /\
  size _hour_ticks = 25%nat /\
  (0 <= i <= 24 -> String.length (hour_label i) = 5%nat) /\
  (forall j, 0 <= i <= 24 -> 0 <= j <= 24 -> hour_label i = hour_label j -> i = j).
Proof.
  assert (forall j, 0 <= j <= 24 -> In j (range 0 25)) as Hrange
    by (intros j Hj; apply list_elem_of_In, elem_of_range; lia).
  split; [| split; [| split]].
  - unfold _hour_ticks, dict_comprehension. rewrite dict_comprehension_lookup.
    destruct (decide (0 <= i <= 24)) as [H | H].
    + rewrite decide_True by (apply elem_of_range; lia). reflexivity.
    + rewrite decide_False by (rewrite elem_of_range; lia). apply lookup_empty.
  - vm_compute. reflexivity.
  - intros H. specialize (Hrange i H). vm_compute in Hrange.
    repeat (destruct Hrange as [<- | Hrange]; [reflexivity |]). destruct Hrange.
  - intros j Hi Hj.
    pose proof (Hrange i Hi) as Ri. pose proof (Hrange j Hj) as Rj.
    vm_compute in Ri, Rj.
    repeat (destruct Ri as [<- | Ri];
            [repeat (destruct Rj as [<- | Rj];
                     [first [reflexivity | discriminate] |]); destruct Rj |]).
    destruct Ri.
Qed.

(** ** Masked cells in the daily mean *)

Lemma nth_mean_over_time (s0 : sic_slice) (r : list sic_slice) (i : nat) :
  (i < length (sic s0))%nat ->
  nth i (mean_over_time (s0 :: r)) NaN
  = nanmean (map (fun s => nth i (sic s) NaN) (s0 :: r)).
Proof.
  intros Hi. unfold mean_over_time.
  rewrite (List.nth_indep _ NaN
             (nanmean (map (fun s : sic_slice => nth 0 (sic s) NaN) (s0 :: r))))
    by (rewrite length_map, length_seq; exact Hi).
  rewrite (List.map_nth (fun i => nanmean (map (fun s : sic_slice => nth i (sic s) NaN) (s0 :: r)))
             (seq 0 (length (sic s0))) 0%nat i).
  rewrite List.seq_nth by exact Hi. reflexivity.
Qed.

(** X21: the daily mean has one cell per cell of the grid, and a cell of
    the mean is NaN exactly when that cell is NaN (masked) at every
    selected time: a cell that is valid at one time of the day is shown,
    as the mean of its valid times. *)
Theorem mean_over_time_masked_cells (s0 : sic_slice) (r : list sic_slice) (i : nat) :
  (i < length (sic s0))%nat ->
  length (mean_over_time (s0 :: r)) = length (sic s0) /\
  (isnan (nth i (mean_over_time (s0 :: r)) NaN) = true <->
   forall s, In s (s0 :: r) -> isnan (nth i (sic s) NaN) = true).
Proof.
  intros Hi. split.
  - unfold mean_over_time. rewrite length_map, length_seq. reflexivity.
  - rewrite nth_mean_over_time by exact Hi.
    unfold nanmean.
    destruct (omap id (map (fun s : sic_slice => nth i (sic s) NaN) (s0 :: r)))
      as [| x xs] eqn:E.
    + apply omap_id_nil in E. rewrite List.Forall_forall in E.
      split; [| reflexivity]. intros _ s Hs.
      apply E, List.in_map_iff. exists s. split; [reflexivity | exact Hs].
    + cbn [isnan]. split; [discriminate |]. intros H. exfalso.
      assert (omap id (map (fun s : sic_slice => nth i (sic s) NaN) (s0 :: r)) = []) as E'.
      { apply omap_id_nil, List.Forall_forall. intros v Hv.
        apply List.in_map_iff in Hv as (s & <- & Hs). apply H, Hs. }
      congruence.
Qed.

Lemma mean_over_time_masked_cells_witness :
  length (mean_over_time (f_slices Examples.sic_april)) = 4%nat /\
  (isnan (nth 3 (mean_over_time (f_slices Examples.sic_april)) NaN) = true <->
   forall s, In s (f_slices Examples.sic_april) -> isnan (nth 3 (sic s) NaN) = true).
Proof.
  apply (mean_over_time_masked_cells
           {| sic_time := Examples.at_ 19083 0;
              sic := [Some 50%Q; Some 255%Q; Some (-5)%Q; NaN] |} _ 3%nat).
  cbn. lia.
Defined.

(** ** Record counts along the slicer *)

Lemma length_sel_time {A} (tm : A -> datetime64) (l : list A) (lo hi : datetime64) :
  (length (sel_time tm l lo hi) <= length l)%nat.
Proof. unfold sel_time, isel. rewrite length_take, length_drop. lia. Qed.

(** X22: each stage of the view slicer can only drop records: the result
    has at most as many records as the prepared day slice, which has at
    most as many as the day slice, which has at most as many as the
    dataset; the slicer never returns more records than the day has. *)
Theorem slicer_never_adds_records
    (ds : nav_dataset) (day k : Z) (t_range : time_range) (prepared out : nav_dataset) :
  _prep_day ds day k = Ok prepared ->
  _ds_for_view ds day k t_range = Ok out ->
  (length out <= length prepared)%nat /\
  (length prepared <= length (_sel_day ds day))%nat /\
  (length (_sel_day ds day) <= length ds)%nat.
Proof.
  intros Ep E. apply ds_for_view_inv in E as (p & Ep' & ->).
  assert (p = prepared) as -> by congruence.
  split; [| split].
  - unfold _filter_timerange.
    destruct t_range as [[[t0 |] [t1 |]] |]; try reflexivity.
    apply length_sel_time.
  - unfold _prep_day in Ep. rewrite coarsen_condition in Ep.
    destruct (Z.ltb_spec 1 k); [| injection Ep as <-; reflexivity].
    rewrite (length_coarsen_mean _ _ _ Ep).
    apply Nat.Div0.div_le_upper_bound.
    assert (1 <= Z.to_nat k)%nat by lia. nia.
  - apply length_sel_time.
Qed.

Lemma slicer_never_adds_records_witness :
  exists prepared out,
    _prep_day Examples.nav 19083 2 = Ok prepared /\
    _ds_for_view Examples.nav 19083 2 Examples.noon = Ok out /\
    (length out <= length prepared)%nat /\
    (length prepared <= length (_sel_day Examples.nav 19083))%nat /\
    (length (_sel_day Examples.nav 19083) <= length Examples.nav)%nat.
Proof.
  destruct (_prep_day Examples.nav 19083 2) as [prepared | e] eqn:Ep;
    [| vm_compute in Ep; discriminate Ep].
  destruct (_ds_for_view Examples.nav 19083 2 Examples.noon) as [out | e] eqn:E;
    [| vm_compute in E; discriminate E].
  exists prepared, out. split; [reflexivity |]. split; [reflexivity |].
  exact (slicer_never_adds_records Examples.nav 19083 2 Examples.noon prepared out Ep E).
Defined.
